(** * Executive-Filing-Monitor: the dashboard pipeline of [script.js]

    A shallow embedding of the filtering, sorting and aggregation code of
    [src/script.js], with the page's global variables and the DOM elements
    the script reads and writes gathered in one explicit state record.

    Conventions of the embedding:
    - JavaScript strings are [string]s (byte strings); [trim] recognises the
      ASCII white space characters and [toUpperCase] maps [a-z] to [A-Z].
    - JavaScript numbers are finite and modelled by their exact value, a
      rational [Q]. A number that may be missing is an [option]: [None] is
      [undefined] for a member that a record of the feed may lack
      ([totalValue], [price]) and [NaN] for the result of a host function
      ([parseFloat], the time value of [new Date(s)]) or of arithmetic on
      a missing number. Every comparison with a missing number is false.
      The members [type], [symbol], [shares] and the dates of a record,
      and the four numbers of a [stats] block, are taken to be present.
    - Differences are only tested for their sign, which the rounding of
      doubles does not change; the quotients that [updateStats] prints
      are rounded to the nearest double, as the machine division does,
      before [toFixed] reads them.
    - Where the language leaves the behaviour to the engine, the engine
      modelled is V8. [Array.prototype.sort] is V8's sort of an array
      shorter than 64 elements, step by step: the first run is found (and
      reversed when it descends), then every other element is put in its
      place by binary insertion; a comparator result is only tested for
      [order < 0], [NaN] counting as [0]. For longer arrays V8 merges
      several runs; the result is the same whenever the comparator is
      consistent, which is where an order is claimed of the script.
    - [Date] parsing and [parseFloat] are host functions: the pipeline is
      parametrised by them, and two concrete instances are given for
      evaluating examples.
    - HTML generation and the locale-dependent formatters are outside the
      embedding and taken not to throw: a table body is represented by
      the rows it shows, and a chart by the data handed to it. The
      options the script passes to [new Chart] are those of Chart.js 3
      and later, whose constructor throws when the canvas already carries
      a chart; the script never destroys a chart, so [renderCharts]
      throws whenever the charts have been drawn before. *)

From Stdlib Require Import String Ascii List ZArith QArith Lqa Lia.
From Stdlib Require Import Permutation Sorted Bool DecimalString.
Import ListNotations.

Open Scope string_scope.

(** ** JavaScript string and array built-ins used by the script *)

Module JsString.

(** White space removed by [String.prototype.trim] (ASCII part):
    TAB, LF, VT, FF, CR and SPACE. *)
Definition is_space (c : ascii) : bool :=
  let n := nat_of_ascii c in
  ((9 <=? n)%nat && (n <=? 13)%nat) || (n =? 32)%nat.

Definition is_comma (c : ascii) : bool := Ascii.eqb c ",".

Fixpoint trimStart (s : string) : string :=
  match s with
  | EmptyString => EmptyString
  | String c s' => if is_space c then trimStart s' else s
  end.

Fixpoint trimEnd (s : string) : string :=
  match s with
  | EmptyString => EmptyString
  | String c s' =>
      match trimEnd s' with
      | EmptyString => if is_space c then EmptyString else String c EmptyString
      | r => String c r
      end
  end.

(** [s.trim()] *)
Definition trim (s : string) : string := trimEnd (trimStart s).

Definition upper_ascii (c : ascii) : ascii :=
  let n := nat_of_ascii c in
  if ((97 <=? n)%nat && (n <=? 122)%nat) then ascii_of_nat (n - 32) else c.

(** [s.toUpperCase()] *)
Fixpoint toUpperCase (s : string) : string :=
  match s with
  | EmptyString => EmptyString
  | String c s' => String (upper_ascii c) (toUpperCase s')
  end.

(** [s.split(',')]: the result is never the empty array; the empty
    string splits into one empty token. *)
Fixpoint split_comma (s : string) : list string :=
  match s with
  | EmptyString => [EmptyString]
  | String c s' =>
      if is_comma c then EmptyString :: split_comma s'
      else match split_comma s' with
           | t :: ts => String c t :: ts
           | [] => [String c EmptyString]
           end
  end.

(** [s.includes(sub)] *)
Fixpoint includes (s sub : string) : bool :=
  prefix sub s ||
  match s with
  | EmptyString => false
  | String _ s' => includes s' sub
  end.

(** Truthiness of a string: only the empty string is falsy. *)
Definition truthy (s : string) : bool :=
  match s with EmptyString => false | String _ _ => true end.

(** [l.join(sep)] on an array of strings *)
Fixpoint join (sep : string) (l : list string) : string :=
  match l with
  | [] => EmptyString
  | [x] => x
  | x :: l' => x ++ sep ++ join sep l'
  end.

End JsString.

Module JsArray.

(** [arr.includes(x)] on an array of strings (strict equality). *)
Definition includes (arr : list string) (x : string) : bool :=
  existsb (String.eqb x) arr.

(** The test [order < 0] that the sort applies to a comparator result,
    a [NaN] result counting as [0]. *)
Definition negative (order : option Q) : bool :=
  match order with
  | Some q => negb (Qle_bool 0 q)
  | None => false
  end.

Section Sort.
Context {A : Type}.
Variable comparefn : A -> A -> option Q.

(** The rest of the first run: the elements that continue it, and what
    follows it. Each element is compared with the one before it; a
    descending run goes on while [order < 0], an ascending one while
    [order >= 0]. *)
Fixpoint run_tail (descending : bool) (previous : A) (l : list A)
  : list A * list A :=
  match l with
  | [] => ([], [])
  | current :: l' =>
      let order := comparefn current previous in
      if Bool.eqb (negative order) descending then
        let (run, rest) := run_tail descending current l' in
        (current :: run, rest)
      else ([], l)
  end.

(** The first run, reversed in place when it descends, and what
    follows it. *)
Definition countAndMakeRun (l : list A) : list A * list A :=
  match l with
  | [] => ([], [])
  | [x] => ([x], [])
  | first :: second :: l' =>
      let descending := negative (comparefn second first) in
      let (run, rest) := run_tail descending second l' in
      let whole := first :: second :: run in
      (if descending then rev whole else whole, rest)
  end.

(** The binary search of the place of [pivot] in the sorted part,
    between the positions [left] and [right]; [steps] bounds the number
    of halvings. *)
Fixpoint search (steps : nat) (pivot : A) (sorted : list A) (left right : nat)
  : nat :=
  match steps with
  | O => left
  | S steps' =>
      if (left <? right)%nat then
        let mid := (left + (right - left) / 2)%nat in
        match nth_error sorted mid with
        | Some e =>
            if negative (comparefn pivot e)
            then search steps' pivot sorted left mid
            else search steps' pivot sorted (S mid) right
        | None => left
        end
      else left
  end.

(** One turn of the binary insertion sort: [pivot], the element that
    follows the sorted part, is moved to its place in it. *)
Definition binaryInsert (sorted : list A) (pivot : A) : list A :=
  let place := search (List.length sorted) pivot sorted 0 (List.length sorted) in
  (firstn place sorted ++ pivot :: skipn place sorted)%list.

(** [arr.sort(comparefn)] *)
Definition sort (l : list A) : list A :=
  let (run, rest) := countAndMakeRun l in
  fold_left binaryInsert rest run.
End Sort.

End JsArray.

(** ** Watchlist management *)

(** [applyCustomWatchlist]: the new value of [customWatchlistTickers]
    computed from the text of the [customWatchlist] input. *)
Definition parseCustomWatchlist (value : string) : list string :=
  let input := JsString.trim value in
  if JsString.truthy input then
    filter JsString.truthy
      (map (fun t => JsString.toUpperCase (JsString.trim t))
           (JsString.split_comma input))
  else [].

(** The watchlist parser as the specification words it: split on commas,
    trim each token, uppercase each token, drop the empty tokens. *)
Definition parseWatchlist_spec (input : string) : list string :=
  filter JsString.truthy
    (map JsString.toUpperCase
       (map JsString.trim (JsString.split_comma input))).

(** ** Record model: the two documents of the feed *)

(** A trade record; [price] and [totalValue] may be missing. *)
Module Trade.
Record t := mk {
  type : string;
  symbol : string;
  name : string;
  shares : Q;
  price : option Q;
  totalValue : option Q;
  transactionCode : option string;
  transactionDescription : option string;
  transactionDate : string;
  filingDate : string;
  secLink : option string
}.
End Trade.

(** The shapes in which the feed delivers [filing.items]. *)
Inductive ItemsField :=
| ItemsAbsent
| ItemsString (s : string)
| ItemsArray (l : list string).

Module Filing.
Record t := mk {
  symbol : string;
  items : ItemsField;
  reportDate : string;
  filedDate : string;
  acceptedDate : string;
  reportUrl : option string
}.
End Filing.

Module Stats.
Record t := mk {
  totalAlerts : Q;
  buys : Q;
  sells : Q;
  totalValue : Q
}.
End Stats.

(** [data/trades_data.json] once parsed; an absent member is [None].
    A body that parses is taken to be an object whose members, when
    present, are of the types the feed gives them. *)
Module TradesDoc.
Record t := mk {
  trades : option (list Trade.t);
  stats : option Stats.t;
  lastUpdated : option string
}.
End TradesDoc.

(** [data/form8k_data.json] once parsed. *)
Module FilingsDoc.
Record t := mk {
  filings : option (list Filing.t)
}.
End FilingsDoc.

(** What [await fetch(url)] followed by [await response.json()] can do:
    [fetch] rejects, or a response arrives (with any status: the script
    never reads [response.ok]) whose body parses as JSON or does not. *)
Inductive Fetched (D : Type) :=
| NetworkError
| Response (ok : bool) (body : option D).
Arguments NetworkError {D}.
Arguments Response {D} ok body.

(** The document the script obtains, [None] when either [await] throws. *)
Definition fetched_json {D : Type} (r : Fetched D) : option D :=
  match r with
  | NetworkError => None
  | Response _ body => body
  end.

(** ** Form 8-K item explanations *)

Definition dq : string := String (ascii_of_nat 34) EmptyString.

Definition itemExplanations : list (string * string) :=
  [ ("1.01", "Company signed an important contract");
    ("1.02", "Major contract terminated or cancelled");
    ("1.03", "🚨 Bankruptcy or receivership filing");
    ("2.01", "Acquired or sold significant business/assets");
    ("2.02", "Earnings release or financial results");
    ("2.03", "New debt issued (loans, bonds, credit)");
    ("2.04", "Debt acceleration or penalties triggered");
    ("2.05", "Restructuring, layoffs, or plant closures");
    ("2.06", "Large asset write-downs or impairments");
    ("3.01", "🚨 Risk of delisting from exchange");
    ("3.02", "Private stock sale (unregistered)");
    ("3.03", "Changes to shareholder rights or dividends");
    ("4.01", "Auditor changed (fired or resigned)");
    ("4.02", "🚩 Financial restatement likely - accounting issue");
    ("5.01", "Change in company ownership/control");
    ("5.02", "CEO/CFO or director change");
    ("5.03", "Corporate governance rules updated");
    ("5.04", "Employee stock trading temporarily suspended");
    ("5.05", "Code of ethics amended or waived");
    ("7.01", "Public disclosure of material information");
    ("8.01", "Other material event (lawsuit, investigation, etc.)");
    ("9.01", "Financial statements and exhibits attached") ].

(** The text a table holds under one of its own keys. *)
Fixpoint explanation_of (tbl : list (string * string)) (key : string)
  : option string :=
  match tbl with
  | [] => None
  | (k, v) :: tbl' => if String.eqb k key then Some v else explanation_of tbl' key
  end.

(** Names of the members every object inherits from [Object.prototype]:
    with such a key, [obj[key]] on an object literal is not [undefined]. *)
Definition Object_prototype_names : list string :=
  [ "constructor"; "hasOwnProperty"; "isPrototypeOf"; "propertyIsEnumerable";
    "toLocaleString"; "toString"; "valueOf"; "__proto__";
    "__defineGetter__"; "__defineSetter__";
    "__lookupGetter__"; "__lookupSetter__" ].

(** [key] names a member every object inherits. *)
Definition inherited_name (key : string) : bool :=
  JsArray.includes Object_prototype_names key.

(** The text a template literal makes of the inherited member: the
    prototype object itself under [__proto__], a built-in function under
    the other names ([Object] under [constructor]). *)
Definition inherited_text (key : string) : string :=
  if String.eqb key "__proto__" then "[object Object]"
  else if String.eqb key "constructor"
  then "function Object() { [native code] }"
  else "function " ++ key ++ "() { [native code] }".

(** [itemExplanations[key]]: the text under an own key of the literal,
    else the member inherited under that name, else [undefined]. Every
    text of the table is non-empty and every inherited member is an
    object, so whatever is found is truthy. *)
Definition itemExplanations_at (key : string) : option string :=
  match explanation_of itemExplanations key with
  | Some text => Some text
  | None => if inherited_name key then Some (inherited_text key) else None
  end.

(** The guard [filing.items && filing.items.length > 0]. *)
Definition has_items (i : ItemsField) : bool :=
  match i with
  | ItemsAbsent => false
  | ItemsString s => JsString.truthy s
  | ItemsArray l => (0 <? List.length l)%nat
  end.

(** The array the loop runs over. *)
Definition parsed_items (i : ItemsField) : list string :=
  match i with
  | ItemsArray l => l
  | ItemsString s => map JsString.trim (JsString.split_comma s)
  | ItemsAbsent => []
  end.

Definition item_markup (trimmedItem explanation : string) : string :=
  "<span class=" ++ dq ++ "item-code" ++ dq ++ ">Item " ++ trimmedItem
  ++ "</span><span class=" ++ dq ++ "item-description" ++ dq ++ ">"
  ++ explanation ++ "</span>".

(** One turn of the [for (let item of items)] loop. *)
Definition push_description (descriptions : list string) (item : string)
  : list string :=
  let trimmedItem := JsString.trim item in
  match itemExplanations_at trimmedItem with
  | Some e => descriptions ++ [item_markup trimmedItem e]
  | None => descriptions
  end.

Definition default_explanation : string :=
  "Material company event requiring SEC disclosure".

Definition get8KExplanation (filing : Filing.t) : string :=
  if has_items (Filing.items filing) then
    let items := parsed_items (Filing.items filing) in
    let descriptions := fold_left push_description items [] in
    if (0 <? List.length descriptions)%nat then
      "<div style=" ++ dq ++ "line-height: 1.8;" ++ dq ++ ">"
      ++ JsString.join "<br>" descriptions ++ "</div>"
    else default_explanation
  else default_explanation.

(** An item code matches when, trimmed, it is a key of the table. *)
Definition item_matches (item : string) : bool :=
  match explanation_of itemExplanations (JsString.trim item) with
  | Some _ => true
  | None => false
  end.

(** ** Default watchlist *)

Definition DEFAULT_WATCHLIST : list string :=
  [ "MSFT"; "NVDA"; "TSLA"; "GOOGL"; "META"; "AMZN"; "NFLX"; "AMD";
    "INTC"; "COIN"; "LYFT"; "ORCL"; "AVGO"; "ADBE"; "PYPL"; "PLTR";
    "SMCI"; "SOFI"; "SMR"; "GME"; "HIMS"; "CRWV"; "XPEV"; "HOOD";
    "OKLO"; "ACHR"; "IREN"; "NBIS"; "MU"; "SNOW"; "APP"; "TSM";
    "ASTS"; "MRVL"; "BA"; "PDD"; "SOUN"; "PANW"; "TEM"; "LLY";
    "ALGN"; "SPOT"; "CVNA"; "SHOP"; "DUOL"; "NKE"; "CSCO"; "BULL";
    "JNJ"; "LCID"; "KO"; "GE"; "BE"; "NEE"; "PEP"; "RR"; "IONQ";
    "QCOM"; "LNTH"; "CFLT"; "LMND"; "JOBY"; "CAT"; "OPEN"; "RIVN";
    "PFE"; "CNC"; "NVO"; "NOW"; "CVS"; "ABT"; "IBM"; "JPM"; "NVAX";
    "BRK-B"; "UNH"; "AAPL" ].

(** ** Page state: the script's globals and the DOM elements it uses *)

(** Text content of an element. The locale-dependent formatters are kept
    symbolic: [LocaleNumber n] is [n.toLocaleString()]. *)
Inductive Stamp :=
| FeedStamp (s : string)
| ClockNow.

Inductive Text :=
| Markup
| LocaleNumber (n : Q)
| Literal (s : string)
| LastUpdated (t : Stamp).

(** Content of [#form4Body]. *)
Inductive Form4Body :=
| Form4Markup
| NoDataAvailable
| NoTradesMatch
| TradeRows (rows : list Trade.t).

(** Content of [#form8kBody]: each row carries its explanation cell. *)
Inductive Form8kBody :=
| Form8kMarkup
| NoFilingsAvailable
| FilingRows (rows : list (Filing.t * string)).

(** The keys of [valueBuckets], in the order the object literal lists them. *)
Inductive Bucket :=
| Under50K | From50K | From100K | From500K | From1M | Over5M.

Definition Bucket_eqb (a b : Bucket) : bool :=
  match a, b with
  | Under50K, Under50K | From50K, From50K | From100K, From100K
  | From500K, From500K | From1M, From1M | Over5M, Over5M => true
  | _, _ => false
  end.

Definition all_buckets : list Bucket :=
  [Under50K; From50K; From100K; From500K; From1M; Over5M].

Definition bucket_label (b : Bucket) : string :=
  match b with
  | Under50K => "<$50K"
  | From50K => "$50K-$100K"
  | From100K => "$100K-$500K"
  | From500K => "$500K-$1M"
  | From1M => "$1M-$5M"
  | Over5M => ">$5M"
  end.

(** The object [valueBuckets]: a count per key. *)
Definition ValueBuckets := Bucket -> nat.

Record Charts := mkCharts {
  buySell : nat * nat;
  ticker : list (string * nat);
  value : list (string * nat)
}.

Record Controls := mkControls {
  filterType : string;
  filterTicker : string;
  filterMinValue : string;
  sortBy : string;
  customWatchlist : string;
  sort8K : string
}.

Record StatsPanel := mkStatsPanel {
  totalAlerts : Text;
  totalBuys : Text;
  totalSells : Text;
  totalValue : Text;
  total8K : Text;
  activeTickers : Text
}.

Record App := mkApp {
  tradesData : list Trade.t;
  form8kData : list Filing.t;
  filteredTrades : list Trade.t;
  customWatchlistTickers : list string;
  form8kSortOrder : string;
  charts : option Charts;
  controls : Controls;
  form4Body : Form4Body;
  form8kBody : Form8kBody;
  statsPanel : StatsPanel;
  lastUpdate : Text
}.

Definition set_tradesData (v : list Trade.t) (st : App) : App :=
  mkApp v (form8kData st) (filteredTrades st) (customWatchlistTickers st)
    (form8kSortOrder st) (charts st) (controls st) (form4Body st)
    (form8kBody st) (statsPanel st) (lastUpdate st).

Definition set_form8kData (v : list Filing.t) (st : App) : App :=
  mkApp (tradesData st) v (filteredTrades st) (customWatchlistTickers st)
    (form8kSortOrder st) (charts st) (controls st) (form4Body st)
    (form8kBody st) (statsPanel st) (lastUpdate st).

Definition set_filteredTrades (v : list Trade.t) (st : App) : App :=
  mkApp (tradesData st) (form8kData st) v (customWatchlistTickers st)
    (form8kSortOrder st) (charts st) (controls st) (form4Body st)
    (form8kBody st) (statsPanel st) (lastUpdate st).

Definition set_customWatchlistTickers (v : list string) (st : App) : App :=
  mkApp (tradesData st) (form8kData st) (filteredTrades st) v
    (form8kSortOrder st) (charts st) (controls st) (form4Body st)
    (form8kBody st) (statsPanel st) (lastUpdate st).

Definition set_form8kSortOrder (v : string) (st : App) : App :=
  mkApp (tradesData st) (form8kData st) (filteredTrades st)
    (customWatchlistTickers st) v (charts st) (controls st) (form4Body st)
    (form8kBody st) (statsPanel st) (lastUpdate st).

Definition set_charts (v : option Charts) (st : App) : App :=
  mkApp (tradesData st) (form8kData st) (filteredTrades st)
    (customWatchlistTickers st) (form8kSortOrder st) v (controls st)
    (form4Body st) (form8kBody st) (statsPanel st) (lastUpdate st).

Definition set_controls (v : Controls) (st : App) : App :=
  mkApp (tradesData st) (form8kData st) (filteredTrades st)
    (customWatchlistTickers st) (form8kSortOrder st) (charts st) v
    (form4Body st) (form8kBody st) (statsPanel st) (lastUpdate st).

Definition set_form4Body (v : Form4Body) (st : App) : App :=
  mkApp (tradesData st) (form8kData st) (filteredTrades st)
    (customWatchlistTickers st) (form8kSortOrder st) (charts st)
    (controls st) v (form8kBody st) (statsPanel st) (lastUpdate st).

Definition set_form8kBody (v : Form8kBody) (st : App) : App :=
  mkApp (tradesData st) (form8kData st) (filteredTrades st)
    (customWatchlistTickers st) (form8kSortOrder st) (charts st)
    (controls st) (form4Body st) v (statsPanel st) (lastUpdate st).

Definition set_statsPanel (v : StatsPanel) (st : App) : App :=
  mkApp (tradesData st) (form8kData st) (filteredTrades st)
    (customWatchlistTickers st) (form8kSortOrder st) (charts st)
    (controls st) (form4Body st) (form8kBody st) v (lastUpdate st).

Definition set_lastUpdate (v : Text) (st : App) : App :=
  mkApp (tradesData st) (form8kData st) (filteredTrades st)
    (customWatchlistTickers st) (form8kSortOrder st) (charts st)
    (controls st) (form4Body st) (form8kBody st) (statsPanel st) v.

(** What a call of [renderCharts] does: it draws the charts and
    returns, or its first [new Chart], handed the data of the doughnut,
    throws because the canvas is in use. *)
Inductive ChartsRun :=
| ChartsDrawn (st' : App)
| CanvasInUse (data : nat * nat).

(** The state when the script has been evaluated and nothing has run:
    every global is empty and the sort order is ['newest']. *)
Definition initial (c : Controls) : App :=
  mkApp [] [] [] [] "newest" None c Form4Markup Form8kMarkup
    (mkStatsPanel Markup Markup Markup Markup Markup Markup) Markup.

(** ** Number helpers *)

(** [x < y] on numbers. *)
Definition Qlt_bool (x y : Q) : bool := negb (Qle_bool y x).

(** [x < y] for a number [x] that may be missing: false when it is. *)
Definition lt_number (x : option Q) (y : Q) : bool :=
  match x with
  | Some v => Qlt_bool v y
  | None => false
  end.

(** [x - y] for numbers that may be missing: [NaN] when one is. *)
Definition sub_number (x y : option Q) : option Q :=
  match x, y with
  | Some a, Some b => Some (a - b)
  | _, _ => None
  end.

(** [r || 0] for a number [r]: [NaN] and [0] are falsy. *)
Definition or_zero (r : option Q) : Q :=
  match r with
  | Some q => if Qeq_bool q 0 then 0 else q
  | None => 0
  end.

Definition of_length {A : Type} (l : list A) : Q :=
  inject_Z (Z.of_nat (List.length l)).

Definition decimal (n : Z) : string :=
  NilZero.string_of_uint (N.to_uint (Z.to_N n)).

(** [x.toFixed(2)], for [|x| < 10^21]: the integer nearest to [100 |x|],
    the larger one on a tie, printed with two decimals. *)
Definition toFixed2 (x : Q) : string :=
  let d := Zpos (Qden x) in
  let a := Z.abs (Qnum x) in
  let n := ((200 * a + d) / (2 * d))%Z in
  let cents := (n mod 100)%Z in
  (if Qlt_bool x 0 then "-" else EmptyString)
  ++ decimal (n / 100) ++ "."
  ++ (if (cents <? 10)%Z then "0" else EmptyString) ++ decimal cents.

(** The double nearest to a rational [q >= 1], the one with the even
    significand on a tie: the significand has 53 bits, so the last place
    is worth [2 ^ e] with [e] the exponent of [q] less 52. (The numbers
    met here are far below the largest double.) *)
Definition nearest_double (q : Q) : Q :=
  let n := Qnum q in
  let d := Zpos (Qden q) in
  let e := (Z.log2 (n / d) - 52)%Z in
  let num := (if (0 <=? e)%Z then n else n * 2 ^ (- e))%Z in
  let den := (if (0 <=? e)%Z then d * 2 ^ e else d)%Z in
  let low := (num / den)%Z in
  let r := (num mod den)%Z in
  let m :=
    (if (2 * r <? den)%Z then low
     else if (den <? 2 * r)%Z then low + 1
     else if Z.even low then low else low + 1)%Z in
  if (0 <=? e)%Z then inject_Z (m * 2 ^ e)
  else Qmake m (Z.to_pos (2 ^ (- e))).

(** [x / y] on doubles, for [x >= y > 0]. *)
Definition divide (x y : Q) : Q := nearest_double (x / y).

(** The text [updateStats] puts in [#totalValue]. *)
Definition formatTotalValue (totalValue : Q) : string :=
  if Qle_bool 1000000000 totalValue then
    "$" ++ toFixed2 (divide totalValue 1000000000) ++ "B"
  else if Qle_bool 1000000 totalValue then
    "$" ++ toFixed2 (divide totalValue 1000000) ++ "M"
  else if Qle_bool 1000 totalValue then
    "$" ++ toFixed2 (divide totalValue 1000) ++ "K"
  else "$" ++ toFixed2 totalValue.

(** [new Set(symbols).size] *)
Definition distinct_count (symbols : list string) : nat :=
  List.length (nodup string_dec symbols).

(** ** The pipeline *)

Section Dashboard.

(** [Date_parse s] is the time value of [new Date(s)] in milliseconds,
    [None] for an invalid date. *)
Variable Date_parse : string -> option Z.

(** [parseFloat s], [None] for [NaN]. *)
Variable parseFloat : string -> option Q.

(** [new Date(a) - new Date(b)] *)
Definition date_diff (a b : string) : option Q :=
  match Date_parse a, Date_parse b with
  | Some x, Some y => Some (inject_Z (x - y))
  | _, _ => None
  end.

(** *** Form 4 table *)

Definition renderForm4Table (st : App) : App :=
  if (List.length (filteredTrades st) =? 0)%nat
  then set_form4Body NoTradesMatch st
  else set_form4Body (TradeRows (filteredTrades st)) st.

(** *** Form 8-K table *)

(** The comparator given to [displayForm8k.sort]. *)
Definition compareFilings (order : string) (a b : Filing.t) : option Q :=
  if String.eqb order "newest"
  then date_diff (Filing.filedDate b) (Filing.filedDate a)
  else date_diff (Filing.filedDate a) (Filing.filedDate b).

(** The array [displayForm8k] once filtered and sorted. *)
Definition displayForm8k (st : App) : list Filing.t :=
  let copy := form8kData st in
  let kept :=
    if (0 <? List.length (customWatchlistTickers st))%nat then
      filter (fun filing =>
                JsArray.includes (customWatchlistTickers st)
                  (Filing.symbol filing)) copy
    else copy in
  JsArray.sort (compareFilings (form8kSortOrder st)) kept.

Definition renderForm8kTable (st : App) : App :=
  let shown := displayForm8k st in
  if (List.length shown =? 0)%nat
  then set_form8kBody NoFilingsAvailable st
  else set_form8kBody
         (FilingRows (map (fun filing => (filing, get8KExplanation filing)) shown))
         st.

Definition applyForm8KSort (st : App) : App :=
  renderForm8kTable (set_form8kSortOrder (sort8K (controls st)) st).

(** *** Filter management *)

(** The callback of [tradesData.filter]. *)
Definition keepTrade (type ticker : string) (watchlist : list string)
    (minValue : Q) (trade : Trade.t) : bool :=
  if negb (String.eqb type "all") && negb (String.eqb (Trade.type trade) type)
  then false
  else if JsString.truthy ticker
          && negb (JsString.includes (Trade.symbol trade) ticker)
  then false
  else if (0 <? List.length watchlist)%nat
          && negb (JsArray.includes watchlist (Trade.symbol trade))
  then false
  else if lt_number (Trade.totalValue trade) minValue
  then false
  else true.

(** The comparator given to [filteredTrades.sort]. *)
Definition compareTrades (sortBy : string) (a b : Trade.t) : option Q :=
  if String.eqb sortBy "value"
  then sub_number (Trade.totalValue b) (Trade.totalValue a)
  else if String.eqb sortBy "shares"
  then Some (Trade.shares b - Trade.shares a)
  else date_diff (Trade.filingDate b) (Trade.filingDate a).

Definition applyFilters (st : App) : App :=
  let type := filterType (controls st) in
  let ticker := JsString.toUpperCase (filterTicker (controls st)) in
  let minValue := or_zero (parseFloat (filterMinValue (controls st))) in
  let sortBy := sortBy (controls st) in
  let kept :=
    filter (keepTrade type ticker (customWatchlistTickers st) minValue)
      (tradesData st) in
  let st1 := set_filteredTrades (JsArray.sort (compareTrades sortBy) kept) st in
  renderForm8kTable (renderForm4Table st1).

Definition resetFilters (st : App) : App :=
  let c := controls st in
  applyFilters
    (set_controls
       (mkControls "all" EmptyString "100000" "date" (customWatchlist c) (sort8K c))
       st).

(** *** Watchlist management *)

Definition applyCustomWatchlist (st : App) : App :=
  applyFilters
    (set_customWatchlistTickers
       (parseCustomWatchlist (customWatchlist (controls st))) st).

Definition clearCustomWatchlist (st : App) : App :=
  let c := controls st in
  applyFilters
    (set_controls
       (mkControls (filterType c) (filterTicker c) (filterMinValue c)
          (sortBy c) EmptyString (sort8K c))
       (set_customWatchlistTickers [] st)).

(** *** Summary statistics *)

Definition updateStats (stats : option Stats.t) (st : App) : App :=
  match stats with
  | None => st
  | Some stats =>
      set_statsPanel
        (mkStatsPanel
           (LocaleNumber (Stats.totalAlerts stats))
           (LocaleNumber (Stats.buys stats))
           (LocaleNumber (Stats.sells stats))
           (Literal (formatTotalValue (Stats.totalValue stats)))
           (LocaleNumber (of_length (form8kData st)))
           (LocaleNumber
              (inject_Z (Z.of_nat
                 (distinct_count
                    (map Trade.symbol (tradesData st)
                     ++ map Filing.symbol (form8kData st)))))))
        st
  end.

(** *** Charts *)

(** The key whose counter one turn of the [forEach] increments. *)
Definition bucket_of (val : option Q) : Bucket :=
  if lt_number val 50000 then Under50K
  else if lt_number val 100000 then From50K
  else if lt_number val 500000 then From100K
  else if lt_number val 1000000 then From500K
  else if lt_number val 5000000 then From1M
  else Over5M.

Definition increment (k : Bucket) (valueBuckets : ValueBuckets) : ValueBuckets :=
  fun b => if Bucket_eqb b k then S (valueBuckets b) else valueBuckets b.

Definition valueBuckets (trades : list Trade.t) : ValueBuckets :=
  fold_left
    (fun acc t => increment (bucket_of (Trade.totalValue t)) acc)
    trades (fun _ => 0%nat).

(** [tickerCounts[sym] = (tickerCounts[sym] || 0) + 1], the keys kept in
    the order of their first insertion (a symbol is taken to be a plain
    key: no name that every object inherits, not written with digits
    only). *)
Fixpoint count_ticker (sym : string) (counts : list (string * nat))
  : list (string * nat) :=
  match counts with
  | [] => [(sym, 1%nat)]
  | (k, n) :: rest =>
      if String.eqb k sym then (k, S n) :: rest
      else (k, n) :: count_ticker sym rest
  end.

Definition topTickers (trades : list Trade.t) : list (string * nat) :=
  let tickerCounts :=
    fold_left (fun acc t => count_ticker (Trade.symbol t) acc) trades [] in
  firstn 10
    (JsArray.sort
       (fun a b => Some (inject_Z (Z.of_nat (snd b)) - inject_Z (Z.of_nat (snd a))))
       tickerCounts).

(** [renderCharts]: the first [new Chart] throws when the charts have
    been drawn before; otherwise the doughnut, ticker and value charts
    are drawn with their data (the timeline chart depends on the current
    date and is left out). *)
Definition renderCharts (st : App) : ChartsRun :=
  let buys :=
    List.length (filter (fun t => String.eqb (Trade.type t) "BUY") (tradesData st)) in
  let sells :=
    List.length (filter (fun t => String.eqb (Trade.type t) "SELL") (tradesData st)) in
  match charts st with
  | Some _ => CanvasInUse (buys, sells)
  | None =>
      let vb := valueBuckets (tradesData st) in
      ChartsDrawn
        (set_charts
           (Some (mkCharts (buys, sells) (topTickers (tradesData st))
                    (map (fun b => (bucket_label b, vb b)) all_buckets)))
           st)
  end.

(** *** Data loading *)

(** [x || []] for an array that may be absent. *)
Definition or_empty {A : Type} (x : option (list A)) : list A :=
  match x with Some l => l | None => [] end.

Definition stamp_of (lastUpdated : option string) : Stamp :=
  match lastUpdated with
  | Some s => if JsString.truthy s then FeedStamp s else ClockNow
  | None => ClockNow
  end.

(** The [catch] block. *)
Definition loadData_catch (st : App) : App := set_form4Body NoDataAvailable st.

(** [loadData], given what the two fetches deliver. The second fetch
    is only reached when the first document has been obtained, and the
    [catch] block also receives what [renderCharts] throws. *)
Definition loadData (tradesFetch : Fetched TradesDoc.t)
    (form8kFetch : Fetched FilingsDoc.t) (st : App) : App :=
  match fetched_json tradesFetch with
  | None => loadData_catch st
  | Some tradesJson =>
      let st1 := set_tradesData (or_empty (TradesDoc.trades tradesJson)) st in
      match fetched_json form8kFetch with
      | None => loadData_catch st1
      | Some form8kJson =>
          let st2 := set_form8kData (or_empty (FilingsDoc.filings form8kJson)) st1 in
          let st3 := updateStats (TradesDoc.stats tradesJson) st2 in
          let st4 := applyFilters st3 in
          let st5 := renderForm8kTable st4 in
          match renderCharts st5 with
          | ChartsDrawn st6 =>
              set_lastUpdate
                (LastUpdated (stamp_of (TradesDoc.lastUpdated tradesJson))) st6
          | CanvasInUse _ => loadData_catch st5
          end
      end
  end.

(** The page's life: [loadData()] at load, then once per tick of
    [setInterval(loadData, 300000)]; each element of [ticks] is what
    the two fetches of one run deliver. *)
Definition run (ticks : list (Fetched TradesDoc.t * Fetched FilingsDoc.t))
    (st : App) : App :=
  fold_left (fun s tick => loadData (fst tick) (snd tick) s) ticks st.

End Dashboard.

(** ** Instances of the host functions, for evaluating examples *)

Definition digit_of (c : ascii) : option Z :=
  let n := nat_of_ascii c in
  if ((48 <=? n)%nat && (n <=? 57)%nat) then Some (Z.of_nat (n - 48)) else None.

Fixpoint number_of (s : string) (acc : Z) : option Z :=
  match s with
  | EmptyString => Some acc
  | String c s' =>
      match digit_of c with
      | Some d => number_of s' (10 * acc + d)%Z
      | None => None
      end
  end.

(** Days from 1970-01-01 to the given civil date. *)
Definition days_from_civil (y m d : Z) : Z :=
  let y' := (if m <=? 2 then y - 1 else y)%Z in
  let era := (y' / 400)%Z in
  let yoe := (y' - era * 400)%Z in
  let mp := (if m <=? 2 then m + 9 else m - 3)%Z in
  let doy := ((153 * mp + 2) / 5 + d - 1)%Z in
  let doe := (yoe * 365 + yoe / 4 - yoe / 100 + doy)%Z in
  (era * 146097 + doe - 719468)%Z.

(** A [Date_parse] for calendar dates written [YYYY-MM-DD] (midnight
    UTC); every other string, ["Unknown"] included, is an invalid date. *)
Definition isoDate (s : string) : option Z :=
  if (String.length s =? 10)%nat
     && String.eqb (substring 4 1 s) "-" && String.eqb (substring 7 1 s) "-"
  then
    match number_of (substring 0 4 s) 0,
          number_of (substring 5 2 s) 0,
          number_of (substring 8 2 s) 0 with
    | Some y, Some m, Some d =>
        if ((1 <=? m) && (m <=? 12) && (1 <=? d) && (d <=? 31))%Z
        then Some (86400000 * days_from_civil y m d)%Z
        else None
    | _, _, _ => None
    end
  else None.

(** The leading decimal digits of [s], as [parseFloat] reads them. *)
Fixpoint leading_number (s : string) (acc : option Z) : option Z :=
  match s with
  | EmptyString => acc
  | String c s' =>
      match digit_of c with
      | Some d =>
          leading_number s'
            (Some (10 * match acc with Some a => a | None => 0 end + d)%Z)
      | None => acc
      end
  end.

(** A [parseFloat] for unsigned whole numbers; a string that does not
    start with a digit gives [NaN]. *)
Definition wholeFloat (s : string) : option Q :=
  match leading_number (JsString.trimStart s) None with
  | Some n => Some (inject_Z n)
  | None => None
  end.

(** ** Notions used to state the properties *)

(** The tokens that survive in a watchlist, as a function of the raw
    tokens of the split. *)
Definition tokens (l : list string) : list string :=
  filter JsString.truthy (map JsString.toUpperCase (map JsString.trim l)).

(** [sub] occurs in [s]. *)
Definition contains (s sub : string) : Prop :=
  exists pre post, s = pre ++ sub ++ post.

(** [a] comes strictly after [b] in the order [R]. *)
Definition strictly_after {A : Type} (R : A -> A -> Prop) (a b : A) : Prop :=
  R b a /\ ~ R a b.

(** The watchlist rule: an empty watchlist restricts nothing, a
    non-empty one keeps its exact members. *)
Definition watchlistRule (watchlist : list string) (sym : string) : Prop :=
  watchlist = [] \/ In sym watchlist.

Definition watchlist_passes (watchlist : list string) (sym : string) : bool :=
  match watchlist with
  | [] => true
  | _ :: _ => JsArray.includes watchlist sym
  end.

(** The condition on the value as the specification words it,
    [totalValue >= minValue], which a missing value does not satisfy;
    and as the filter tests it, [totalValue] not below [minValue], which
    a missing value does satisfy. *)
Definition at_least (minValue : Q) (totalValue : option Q) : Prop :=
  match totalValue with
  | Some v => (minValue <= v)%Q
  | None => False
  end.

Definition not_below (minValue : Q) (totalValue : option Q) : Prop :=
  match totalValue with
  | Some v => (minValue <= v)%Q
  | None => True
  end.

(** The four conditions on a trade record: type, ticker substring
    (uppercased before the comparison), watchlist, minimum value. The
    page's value for "every type" is ['all']. [filterPredicate_spec] has
    the fourth as the specification words it, [filterPredicate] as the
    filter tests it. *)
Definition filterPredicate_spec (type tickerSubstring : string)
    (watchlist : list string) (minValue : Q) (record : Trade.t) : Prop :=
  (type = "all" \/ Trade.type record = type)
  /\ (tickerSubstring = EmptyString
      \/ contains (Trade.symbol record) (JsString.toUpperCase tickerSubstring))
  /\ watchlistRule watchlist (Trade.symbol record)
  /\ at_least minValue (Trade.totalValue record).

Definition filterPredicate (type tickerSubstring : string)
    (watchlist : list string) (minValue : Q) (record : Trade.t) : Prop :=
  (type = "all" \/ Trade.type record = type)
  /\ (tickerSubstring = EmptyString
      \/ contains (Trade.symbol record) (JsString.toUpperCase tickerSubstring))
  /\ watchlistRule watchlist (Trade.symbol record)
  /\ not_below minValue (Trade.totalValue record).

(** The three conditions that do not involve the watchlist. *)
Definition keepTrade_unrestricted (type ticker : string) (minValue : Q)
    (trade : Trade.t) : bool :=
  (String.eqb type "all" || String.eqb (Trade.type trade) type)
  && (negb (JsString.truthy ticker)
      || JsString.includes (Trade.symbol trade) ticker)
  && negb (lt_number (Trade.totalValue trade) minValue).

(** Trades whose [totalValue] is the number [v]. *)
Definition has_totalValue (v : Q) (trade : Trade.t) : bool :=
  match Trade.totalValue trade with
  | Some x => Qeq_bool x v
  | None => false
  end.

(** The record carries a [totalValue]. *)
Definition valued (trade : Trade.t) : Prop :=
  Trade.totalValue trade <> None.

(** [a] was filed no later than [b], as far as the two dates parse: the
    comparison of an invalid date with anything never says otherwise. *)
Definition filed_no_later (Date_parse : string -> option Z)
    (a b : Filing.t) : Prop :=
  match Date_parse (Filing.filedDate a), Date_parse (Filing.filedDate b) with
  | Some ta, Some tb => (ta <= tb)%Z
  | _, _ => True
  end.

(** The order the Form 8-K table asks for: newest first under
    ['newest'], oldest first under any other value. *)
Definition filing_order (Date_parse : string -> option Z) (order : string)
    (a b : Filing.t) : Prop :=
  if String.eqb order "newest"
  then filed_no_later Date_parse b a
  else filed_no_later Date_parse a b.

Definition filed_valid (Date_parse : string -> option Z) (f : Filing.t) : Prop :=
  Date_parse (Filing.filedDate f) <> None.

(** The interval of values of each histogram bucket. *)
Definition in_range (b : Bucket) (v : Q) : Prop :=
  match b with
  | Under50K => v < 50000
  | From50K => 50000 <= v /\ v < 100000
  | From100K => 100000 <= v /\ v < 500000
  | From500K => 500000 <= v /\ v < 1000000
  | From1M => 1000000 <= v /\ v < 5000000
  | Over5M => 5000000 <= v
  end%Q.

(** The sum of [totalValue] over a list of trades, a missing value
    adding nothing. *)
Definition totalValue_sum (trades : list Trade.t) : Q :=
  fold_right
    (fun t acc =>
       match Trade.totalValue t with
       | Some v => v + acc
       | None => acc
       end)%Q
    0%Q trades.

(** Builders for the records of the examples: a trade with its value,
    and a trade whose value and price are missing. *)
Definition trade_of (type symbol : string) (shares totalValue : Q)
    (filingDate : string) : Trade.t :=
  Trade.mk type symbol "Insider" shares (Some 0) (Some totalValue) None None
    filingDate filingDate None.

Definition trade_without_value (type symbol : string) (shares : Q)
    (filingDate : string) : Trade.t :=
  Trade.mk type symbol "Insider" shares None None None None
    filingDate filingDate None.

Definition filing_of (symbol : string) (items : ItemsField)
    (filedDate : string) : Filing.t :=
  Filing.mk symbol items filedDate filedDate "Unknown" None.

Definition controls_of (type ticker minValue sortKey : string) : Controls :=
  mkControls type ticker minValue sortKey EmptyString "newest".

(** The data of the examples. *)
Definition example_trades : list Trade.t :=
  [ trade_of "BUY" "AAPL" 100 200000 "2024-01-01";
    trade_of "SELL" "MSFT" 40 50000 "2024-01-02";
    trade_of "BUY" "ZZZZ" 10 50000 "2024-01-03" ].

Definition example_filings : list Filing.t :=
  [ filing_of "AAPL" (ItemsArray ["2.02"]) "2024-01-05";
    filing_of "GOOGL" (ItemsString "2.02, 8.01") "2024-02-01";
    filing_of "ZZZZ" (ItemsArray ["9.99"]) "2024-01-20" ].

Definition example_state (minValue sortKey : string) : App :=
  set_form8kData example_filings
    (set_tradesData example_trades
       (initial (controls_of "all" EmptyString minValue sortKey))).

(** Seven trades, one of them without [totalValue], two of them with
    the same one. *)
Definition example_ties : list Trade.t :=
  [ trade_of "BUY" "AAPL" 90 900000 "2024-01-01";
    trade_of "BUY" "MSFT" 80 800000 "2024-01-01";
    trade_of "BUY" "GOOGL" 10 100000 "2024-01-01";
    trade_without_value "BUY" "TSLA" 70 "2024-01-01";
    trade_of "BUY" "NVDA" 50 500000 "2024-01-01";
    trade_of "BUY" "META" 60 600000 "2024-01-01";
    trade_of "SELL" "AMZN" 50 500000 "2024-01-01" ].

(** Three filings, one of them filed on an unknown date. *)
Definition example_unknown_date : list Filing.t :=
  [ filing_of "AAPL" ItemsAbsent "2024-01-01";
    filing_of "MSFT" ItemsAbsent "Unknown";
    filing_of "GOOGL" ItemsAbsent "2024-01-02" ].

(** A trades document whose [stats] block does not agree with its trades. *)
Definition example_trades_doc : TradesDoc.t :=
  TradesDoc.mk (Some example_trades) (Some (Stats.mk 3 2 1 5)) None.

Definition example_filings_doc : FilingsDoc.t :=
  FilingsDoc.mk (Some example_filings).

(** A later trades document, with other trades. *)
Definition later_trades_doc : TradesDoc.t :=
  TradesDoc.mk (Some [trade_of "SELL" "TSLA" 5 75000 "2024-03-01"]) None None.

(** ** The rest of the page *)

(** *** Timeline chart *)

(** [dailyCounts[date] = 0]: a new key goes last, an existing key keeps
    its place. *)
Fixpoint set_zero (date : string) (dailyCounts : list (string * nat))
  : list (string * nat) :=
  match dailyCounts with
  | [] => [(date, 0%nat)]
  | (k, n) :: rest =>
      if String.eqb k date then (k, 0%nat) :: rest
      else (k, n) :: set_zero date rest
  end.

(** [if (dailyCounts[date] !== undefined) dailyCounts[date]++], for a
    [date] that is not the name of a member every object inherits. *)
Fixpoint count_day (date : string) (dailyCounts : list (string * nat))
  : list (string * nat) :=
  match dailyCounts with
  | [] => []
  | (k, n) :: rest =>
      if String.eqb k date then (k, S n) :: rest
      else (k, n) :: count_day date rest
  end.

(** The object [dailyCounts] after the two [forEach] loops. The array
    [last30Days] is computed by the host from the current date and is a
    parameter here. *)
Definition dailyCounts (last30Days : list string) (trades : list Trade.t)
  : list (string * nat) :=
  fold_left (fun acc t => count_day (Trade.filingDate t) acc) trades
    (fold_left (fun acc date => set_zero date acc) last30Days []).


(** ** Further notions used to state properties *)

(** What [renderForm4Table] shows for given rows. *)
Definition form4_view (rows : list Trade.t) : Form4Body :=
  if (List.length rows =? 0)%nat then NoTradesMatch else TradeRows rows.

(** What [renderForm8kTable] shows for given filings. *)
Definition form8k_view (shown : list Filing.t) : Form8kBody :=
  if (List.length shown =? 0)%nat then NoFilingsAvailable
  else FilingRows (map (fun filing => (filing, get8KExplanation filing)) shown).

(** The trades the current criteria select, in display order. *)
Definition selectedTrades (Date_parse : string -> option Z)
    (parseFloat : string -> option Q) (st : App) : list Trade.t :=
  JsArray.sort (compareTrades Date_parse (sortBy (controls st)))
    (filter
       (keepTrade (filterType (controls st))
          (JsString.toUpperCase (filterTicker (controls st)))
          (customWatchlistTickers st)
          (or_zero (parseFloat (filterMinValue (controls st)))))
       (tradesData st)).

(** The two tables show what the data, the criteria, the watchlist and
    the sort order of the state call for. *)
Definition views_current (Date_parse : string -> option Z)
    (parseFloat : string -> option Q) (st : App) : Prop :=
  filteredTrades st = selectedTrades Date_parse parseFloat st
  /\ form4Body st = form4_view (filteredTrades st)
  /\ form8kBody st = form8k_view (displayForm8k Date_parse st).

(** The settings only the user changes. *)
Definition same_settings (a b : App) : Prop :=
  controls a = controls b
  /\ customWatchlistTickers a = customWatchlistTickers b
  /\ form8kSortOrder a = form8kSortOrder b.



(** The line one item contributes to an explanation when it matches
    the table, and the line it does contribute, a member inherited
    under its name counting as a match. *)
Definition description_of (item : string) : list string :=
  match explanation_of itemExplanations (JsString.trim item) with
  | Some e => [item_markup (JsString.trim item) e]
  | None => []
  end.

Definition line_of (item : string) : list string :=
  match itemExplanations_at (JsString.trim item) with
  | Some e => [item_markup (JsString.trim item) e]
  | None => []
  end.

Definition with_items (filing : Filing.t) (items : ItemsField) : Filing.t :=
  Filing.mk (Filing.symbol filing) items (Filing.reportDate filing)
    (Filing.filedDate filing) (Filing.acceptedDate filing)
    (Filing.reportUrl filing).

Fixpoint has_comma (s : string) : bool :=
  match s with
  | EmptyString => false
  | String c s' => JsString.is_comma c || has_comma s'
  end.

(** A ticker as the watchlist holds it: not empty, nothing to trim,
    nothing to uppercase, no comma. *)
Definition ticker_normal (t : string) : Prop :=
  t <> EmptyString
  /\ JsString.trim t = t
  /\ JsString.toUpperCase t = t
  /\ has_comma t = false.

(** Orders of the Form 4 table: by value as far as the two values are
    there, by shares, by date as far as the two dates parse. *)
Definition value_descending (a b : Trade.t) : Prop :=
  match Trade.totalValue a, Trade.totalValue b with
  | Some x, Some y => (y <= x)%Q
  | _, _ => True
  end.

Definition shares_descending (a b : Trade.t) : Prop :=
  (Trade.shares b <= Trade.shares a)%Q.

Definition filing_newest_first (Date_parse : string -> option Z)
    (a b : Trade.t) : Prop :=
  match Date_parse (Trade.filingDate a), Date_parse (Trade.filingDate b) with
  | Some ta, Some tb => (tb <= ta)%Z
  | _, _ => True
  end.

Definition filingDate_valid (Date_parse : string -> option Z)
    (t : Trade.t) : Prop :=
  Date_parse (Trade.filingDate t) <> None.

(** The object [tickerCounts] of [renderCharts]. *)
Definition tickerCounts (trades : list Trade.t) : list (string * nat) :=
  fold_left (fun acc t => count_ticker (Trade.symbol t) acc) trades [].



Definition is_buy_or_sell (t : Trade.t) : bool :=
  String.eqb (Trade.type t) "BUY" || String.eqb (Trade.type t) "SELL".

(** The datasets a sequence of refreshes leaves: those of the last run
    that obtained them. *)
Definition latest_trades (ticks : list (Fetched TradesDoc.t * Fetched FilingsDoc.t))
    (previous : list Trade.t) : list Trade.t :=
  fold_left
    (fun current tick =>
       match fetched_json (fst tick) with
       | Some tradesJson => or_empty (TradesDoc.trades tradesJson)
       | None => current
       end)
    ticks previous.

Definition latest_filings (ticks : list (Fetched TradesDoc.t * Fetched FilingsDoc.t))
    (previous : list Filing.t) : list Filing.t :=
  fold_left
    (fun current tick =>
       match fetched_json (fst tick), fetched_json (snd tick) with
       | Some _, Some form8kJson => or_empty (FilingsDoc.filings form8kJson)
       | _, _ => current
       end)
    ticks previous.


(** The block [get8KExplanation] builds around the lines it found. *)
Definition explanation_block (descriptions : list string) : string :=
  "<div style=" ++ dq ++ "line-height: 1.8;" ++ dq ++ ">"
  ++ JsString.join "<br>" descriptions ++ "</div>".


(** Trades whose [shares] is the number [v]. *)
Definition has_shares (v : Q) (trade : Trade.t) : bool :=
  Qeq_bool (Trade.shares trade) v.

(** The state with another text in the ticker search box. *)
Definition with_filterTicker (ticker : string) (st : App) : App :=
  let c := controls st in
  set_controls
    (mkControls (filterType c) ticker (filterMinValue c) (sortBy c)
       (customWatchlist c) (sort8K c))
    st.


(** The state of a run of [loadData] that has obtained both documents,
    when [renderCharts] is called. *)
Definition before_charts (Date_parse : string -> option Z)
    (parseFloat : string -> option Q) (tradesJson : TradesDoc.t)
    (form8kJson : FilingsDoc.t) (st : App) : App :=
  applyFilters Date_parse parseFloat
    (updateStats (TradesDoc.stats tradesJson)
       (set_form8kData (or_empty (FilingsDoc.filings form8kJson))
          (set_tradesData (or_empty (TradesDoc.trades tradesJson)) st))).

(** The data of the doughnut that a call of [renderCharts] hands to
    [new Chart]. *)
Definition doughnut (r : ChartsRun) : option (nat * nat) :=
  match r with
  | ChartsDrawn st' => option_map buySell (charts st')
  | CanvasInUse data => Some data
  end.

(** The state a call of [renderCharts] leaves, whether it returns or
    throws. *)
Definition after_charts (st : App) (r : ChartsRun) : App :=
  match r with
  | ChartsDrawn st' => st'
  | CanvasInUse _ => st
  end.

(** The charts have been drawn. *)
Definition charts_drawn (st : App) : bool :=
  match charts st with
  | Some _ => true
  | None => false
  end.

(** Both documents of a run were obtained. *)
Definition both_obtained (tradesFetch : Fetched TradesDoc.t)
    (form8kFetch : Fetched FilingsDoc.t) : bool :=
  match fetched_json tradesFetch, fetched_json form8kFetch with
  | Some _, Some _ => true
  | _, _ => false
  end.

(** Further data of the examples: a state in which the user has typed
    a watchlist, and three days of a timeline. *)
Definition example_watch_state : App :=
  set_controls (mkControls "all" EmptyString EmptyString "date" "aapl, zzzz" "newest")
    (example_state EmptyString "date").


(** * Properties *)

(** ** Strings *)

Module JsStringFacts.
Import JsString.

Lemma is_comma_true (c : ascii) : is_comma c = true -> c = ","%char.
Proof. unfold is_comma. apply Ascii.eqb_eq. Qed.

Lemma space_not_comma (c : ascii) : is_space c = true -> is_comma c = false.
Proof.
  intros Hs. destruct (is_comma c) eqn:Hc; [|reflexivity].
  apply is_comma_true in Hc. subst c. discriminate Hs.
Qed.

Lemma trimEnd_cons (c : ascii) (s : string) :
  trimEnd (String c s) =
  if truthy (trimEnd s) then String c (trimEnd s)
  else if is_space c then EmptyString else String c EmptyString.
Proof. simpl. destruct (trimEnd s); reflexivity. Qed.

Lemma truthy_false (s : string) : truthy s = false -> s = EmptyString.
Proof. destruct s; [reflexivity | discriminate]. Qed.

Lemma trimEnd_cons_keep (c : ascii) (s : string) :
  trimEnd (String c s) <> EmptyString ->
  trimEnd (String c s) = String c (trimEnd s).
Proof.
  rewrite trimEnd_cons. destruct (truthy (trimEnd s)) eqn:Ht; [reflexivity|].
  apply truthy_false in Ht. rewrite Ht.
  destruct (is_space c); [congruence | reflexivity].
Qed.

Lemma trim_commute (s : string) : trimEnd (trimStart s) = trimStart (trimEnd s).
Proof.
  induction s as [|c s IH]; [reflexivity|].
  rewrite trimEnd_cons. simpl trimStart at 1.
  destruct (is_space c) eqn:Hc.
  - rewrite IH. destruct (truthy (trimEnd s)) eqn:Ht.
    + simpl. rewrite Hc. reflexivity.
    + apply truthy_false in Ht. rewrite Ht. reflexivity.
  - rewrite trimEnd_cons. rewrite Hc.
    destruct (truthy (trimEnd s)); simpl; rewrite Hc; reflexivity.
Qed.

Lemma trim_space_cons (c : ascii) (s : string) :
  is_space c = true -> trim (String c s) = trim s.
Proof. intros Hc. unfold trim. simpl. rewrite Hc. reflexivity. Qed.

Lemma split_comma_cons (s : string) :
  exists t ts, split_comma s = t :: ts.
Proof.
  induction s as [|c s [t [ts IH]]]; simpl.
  - eauto.
  - destruct (is_comma c); [eauto|]. rewrite IH. eauto.
Qed.

Lemma truthy_toUpperCase (s : string) : truthy (toUpperCase s) = truthy s.
Proof. destruct s; reflexivity. Qed.

Lemma tokens_trimStart (s : string) :
  tokens (split_comma (trimStart s)) = tokens (split_comma s).
Proof.
  induction s as [|c s IH]; [reflexivity|].
  simpl trimStart. destruct (is_space c) eqn:Hc; [|reflexivity].
  rewrite IH. simpl split_comma. rewrite (space_not_comma _ Hc).
  destruct (split_comma_cons s) as [t [ts Hs]]. rewrite Hs.
  unfold tokens. simpl. rewrite (trim_space_cons _ _ Hc). reflexivity.
Qed.

Lemma split_trimEnd (s : string) :
  map trimEnd (split_comma (trimEnd s)) = map trimEnd (split_comma s).
Proof.
  induction s as [|c s IH]; [reflexivity|].
  destruct (split_comma_cons s) as [t [ts Hs]].
  destruct (split_comma_cons (trimEnd s)) as [t' [ts' Hs']].
  rewrite Hs, Hs' in IH. simpl in IH. injection IH as Ht Hts.
  rewrite trimEnd_cons.
  destruct (truthy (trimEnd s)) eqn:Hne.
  - simpl split_comma. destruct (is_comma c).
    + rewrite Hs, Hs'. simpl. rewrite Ht, Hts. reflexivity.
    + rewrite Hs, Hs'. cbn [map]. rewrite !trimEnd_cons, Ht, Hts. reflexivity.
  - apply truthy_false in Hne. rewrite Hne in Hs'. simpl in Hs'.
    injection Hs' as <- <-. simpl in Ht. destruct ts; [|discriminate].
    destruct (is_space c) eqn:Hc.
    + simpl split_comma. rewrite (space_not_comma _ Hc), Hs.
      cbn [map]. rewrite trimEnd_cons, <- Ht, Hc. reflexivity.
    + simpl split_comma. destruct (is_comma c).
      * rewrite Hs. simpl. rewrite <- Ht. reflexivity.
      * rewrite Hs. cbn [map]. rewrite !trimEnd_cons, <- Ht, Hc. reflexivity.
Qed.

Lemma tokens_trimEnd (s : string) :
  tokens (split_comma (trimEnd s)) = tokens (split_comma s).
Proof.
  unfold tokens.
  assert (E : forall l, map trim l = map trimStart (map trimEnd l)).
  { intros l. rewrite map_map. apply map_ext. intros a. apply trim_commute. }
  rewrite !E, split_trimEnd. reflexivity.
Qed.

Lemma tokens_trim (s : string) :
  tokens (split_comma (trim s)) = tokens (split_comma s).
Proof. unfold trim. rewrite tokens_trimEnd. apply tokens_trimStart. Qed.

(** [prefix] and [includes] against their meaning on concatenations. *)
Lemma prefix_app (sub s : string) :
  prefix sub s = true <-> exists post, s = sub ++ post.
Proof.
  revert s. induction sub as [|a sub IH]; intros s.
  - split; [intros _; exists s; reflexivity | destruct s; reflexivity].
  - destruct s as [|b s].
    + split; [discriminate | intros [post H]; discriminate].
    + cbn [prefix]. destruct (ascii_dec a b) as [->|Hab].
      * rewrite (IH s). split; intros [post H]; exists post; simpl in *; congruence.
      * split; [discriminate | intros [post H]; simpl in H; congruence].
Qed.

Lemma includes_app (s sub : string) :
  includes s sub = true <-> exists pre post, s = pre ++ sub ++ post.
Proof.
  induction s as [|c s IH].
  - cbn [includes]. rewrite orb_false_r, prefix_app. split.
    + intros [post H]. exists EmptyString, post. exact H.
    + intros [pre [post H]]. destruct pre; simpl in H.
      * eauto.
      * discriminate.
  - cbn [includes]. rewrite orb_true_iff, prefix_app, IH. split.
    + intros [[post H] | [pre [post H]]].
      * exists EmptyString, post. exact H.
      * exists (String c pre), post. simpl. congruence.
    + intros [pre [post H]]. destruct pre as [|a pre]; simpl in H.
      * left. eauto.
      * right. exists pre, post. congruence.
Qed.

End JsStringFacts.

(** ** The sort *)

Module JsArrayFacts.
Import JsArray.

Lemma includes_In (arr : list string) (x : string) :
  includes arr x = true <-> In x arr.
Proof.
  unfold includes. rewrite existsb_exists. split.
  - intros [y [Hy E]]. apply String.eqb_eq in E. subst. exact Hy.
  - intros H. exists x. split; [exact H | apply String.eqb_refl].
Qed.

(** Lists and positions. *)
Lemma Forall_firstn_nth {A : Type} (Q' : A -> Prop) (n : nat) (l : list A) :
  (forall j e, (j < n)%nat -> nth_error l j = Some e -> Q' e) ->
  Forall Q' (firstn n l).
Proof.
  revert l. induction n as [|n IH]; intros l H; [constructor|].
  destruct l as [|x l]; [constructor|]. simpl. constructor.
  - apply (H 0%nat x); [lia | reflexivity].
  - apply IH. intros j e Hj He. apply (H (S j) e); [lia | exact He].
Qed.

Lemma Forall_skipn_nth {A : Type} (Q' : A -> Prop) (n : nat) (l : list A) :
  (forall j e, (n <= j)%nat -> nth_error l j = Some e -> Q' e) ->
  Forall Q' (skipn n l).
Proof.
  revert l. induction n as [|n IH]; intros l H.
  - simpl. rewrite Forall_forall. intros e He.
    apply In_nth_error in He. destruct He as [j Hj]. apply (H j e); [lia | exact Hj].
  - destruct l as [|x l]; [constructor|]. simpl. apply IH.
    intros j e Hj He. apply (H (S j) e); [lia | exact He].
Qed.

Lemma StronglySorted_nth {A : Type} (R : A -> A -> Prop) (l : list A) :
  StronglySorted R l ->
  forall i j a b, (i < j)%nat ->
    nth_error l i = Some a -> nth_error l j = Some b -> R a b.
Proof.
  induction 1 as [|x l Hs IH Hall]; intros i j a b Hij Ha Hb.
  - destruct i; discriminate.
  - destruct j as [|j]; [lia|]. destruct i as [|i]; simpl in *.
    + injection Ha as <-. rewrite Forall_forall in Hall.
      apply Hall. apply nth_error_In in Hb. exact Hb.
    + apply (IH i j); [lia | assumption | assumption].
Qed.

Lemma StronglySorted_snoc {A : Type} (R : A -> A -> Prop) (l : list A) (x : A) :
  StronglySorted R l -> Forall (fun a => R a x) l -> StronglySorted R (l ++ [x]).
Proof.
  induction 1 as [|y l Hs IH Hall]; intros H; simpl.
  - repeat constructor.
  - inversion H; subst. constructor; [apply IH; assumption|].
    apply Forall_app. split; [assumption | repeat constructor; assumption].
Qed.

Lemma StronglySorted_insert {A : Type} (R : A -> A -> Prop) (l1 l2 : list A) (x : A) :
  StronglySorted R (l1 ++ l2) ->
  Forall (fun a => R a x) l1 -> Forall (R x) l2 ->
  StronglySorted R (l1 ++ x :: l2).
Proof.
  induction l1 as [|y l1 IH]; simpl; intros Hs H1 H2.
  - constructor; assumption.
  - inversion Hs as [|? ? Hs' Hall]; subst. inversion H1; subst.
    constructor; [apply IH; assumption|].
    apply Forall_app in Hall. destruct Hall as [Ha Hb].
    apply Forall_app. split; [assumption|]. constructor; assumption.
Qed.

Lemma filter_none {A : Type} (p : A -> bool) (l : list A) :
  (forall x, In x l -> p x = false) -> filter p l = [].
Proof.
  induction l as [|a l IH]; simpl; intros H; [reflexivity|].
  rewrite (H a (or_introl eq_refl)). apply IH. intros x Hx. apply H. right. exact Hx.
Qed.

Section SortFacts.
Context {A : Type}.
Variable comparefn : A -> A -> option Q.

Lemma run_tail_split (descending : bool) (l : list A) :
  forall previous run rest,
    run_tail comparefn descending previous l = (run, rest) ->
    l = (run ++ rest)%list.
Proof.
  induction l as [|current l IH]; simpl; intros previous run rest H.
  - injection H as <- <-. reflexivity.
  - destruct (Bool.eqb (negative (comparefn current previous)) descending).
    + destruct (run_tail comparefn descending current l) as [run' rest'] eqn:E.
      injection H as <- <-. simpl. f_equal. apply (IH current). exact E.
    + injection H as <- <-. reflexivity.
Qed.

Lemma countAndMakeRun_Permutation (l run rest : list A) :
  countAndMakeRun comparefn l = (run, rest) -> Permutation (run ++ rest) l.
Proof.
  destruct l as [|first [|second l]]; simpl; intros H.
  - injection H as <- <-. reflexivity.
  - injection H as <- <-. reflexivity.
  - destruct (run_tail comparefn (negative (comparefn second first)) second l)
      as [run' rest'] eqn:E.
    apply run_tail_split in E. subst l.
    injection H as <- <-.
    change (first :: second :: (run' ++ rest'))%list
      with ((first :: second :: run') ++ rest')%list.
    apply Permutation_app_tail.
    destruct (negative (comparefn second first)); [|reflexivity].
    symmetry. apply Permutation_rev.
Qed.

Lemma binaryInsert_Permutation (sorted : list A) (pivot : A) :
  Permutation (binaryInsert comparefn sorted pivot) (pivot :: sorted).
Proof.
  unfold binaryInsert.
  set (n := search comparefn _ pivot sorted 0 _).
  rewrite <- (firstn_skipn n sorted) at 3.
  symmetry. apply Permutation_middle.
Qed.

Lemma fold_binaryInsert_Permutation (rest run : list A) :
  Permutation (fold_left (binaryInsert comparefn) rest run) (run ++ rest).
Proof.
  revert run. induction rest as [|x rest IH]; intros run; simpl.
  - rewrite app_nil_r. reflexivity.
  - rewrite IH, binaryInsert_Permutation. simpl. apply Permutation_middle.
Qed.

(** The binary search ends within the halvings it is allowed: more of
    them change nothing. *)
Lemma search_enough (pivot : A) (sorted : list A) (more : nat) :
  forall steps left right,
    (right - left <= steps)%nat -> (right <= List.length sorted)%nat ->
    search comparefn (steps + more) pivot sorted left right
    = search comparefn steps pivot sorted left right.
Proof.
  induction steps as [|steps IH]; intros left right Hsteps Hright.
  - cbn [Nat.add search]. destruct more as [|more]; [reflexivity|].
    cbn [search]. destruct (Nat.ltb_spec left right); [lia | reflexivity].
  - cbn [Nat.add search].
    destruct (Nat.ltb_spec left right) as [Hlt|Hge]; [|reflexivity].
    assert (Hmid : (left <= left + (right - left) / 2 < right)%nat).
    { split; [lia|].
      assert ((right - left) / 2 < right - left)%nat
        by (apply Nat.div_lt; lia). lia. }
    destruct (nth_error sorted (left + (right - left) / 2)) as [e|];
      [|reflexivity].
    destruct (negative (comparefn pivot e)); apply IH; lia.
Qed.

Lemma sort_Permutation (l : list A) : Permutation (sort comparefn l) l.
Proof.
  unfold sort. destruct (countAndMakeRun comparefn l) as [run rest] eqn:E.
  rewrite fold_binaryInsert_Permutation.
  apply countAndMakeRun_Permutation. exact E.
Qed.

(** A comparator that decides an order [R] on the elements that satisfy
    [P]: consistent there, so the sort must put them in order and keep
    ties as they are. *)
Section Consistent.
Variable R : A -> A -> Prop.
Variable P : A -> Prop.
Hypothesis R_before :
  forall x y, P x -> P y -> negative (comparefn x y) = true -> R x y /\ ~ R y x.
Hypothesis R_after :
  forall x y, P x -> P y -> negative (comparefn x y) = false -> R y x.
Hypothesis R_trans :
  forall x y z, P x -> P y -> P z -> R x y -> R y z -> R x z.

(** Elements among which the order does not tell. *)
Variable p : A -> bool.
Hypothesis p_tied : forall x y, P x -> P y -> p x = true -> p y = true -> R x y.

Lemma ascending_run (l : list A) :
  forall previous run rest,
    run_tail comparefn false previous l = (run, rest) ->
    P previous -> Forall P l ->
    StronglySorted R (previous :: run) /\ Forall P run.
Proof.
  induction l as [|current l IH]; simpl; intros previous run rest H Hp Hl.
  - injection H as <- <-. repeat constructor.
  - inversion Hl as [|? ? Hc Hl']; subst.
    destruct (negative (comparefn current previous)) eqn:E; simpl in H.
    + injection H as <- <-. repeat constructor.
    + destruct (run_tail comparefn false current l) as [run' rest'] eqn:E'.
      injection H as <- <-.
      destruct (IH current run' rest' E' Hc Hl') as [Hs Hrun].
      split; [|constructor; assumption].
      assert (Hpc : R previous current) by (apply R_after; assumption).
      constructor; [exact Hs|]. constructor; [exact Hpc|].
      inversion Hs as [|? ? _ Hall]; subst.
      rewrite Forall_forall in *. intros x Hx.
      apply (R_trans previous current x); auto.
Qed.

Lemma descending_run (l : list A) :
  forall previous run rest,
    run_tail comparefn true previous l = (run, rest) ->
    P previous -> Forall P l ->
    StronglySorted (strictly_after R) (previous :: run) /\ Forall P run.
Proof.
  induction l as [|current l IH]; simpl; intros previous run rest H Hp Hl.
  - injection H as <- <-. repeat constructor.
  - inversion Hl as [|? ? Hc Hl']; subst.
    destruct (negative (comparefn current previous)) eqn:E; simpl in H.
    + destruct (run_tail comparefn true current l) as [run' rest'] eqn:E'.
      injection H as <- <-.
      destruct (IH current run' rest' E' Hc Hl') as [Hs Hrun].
      split; [|constructor; assumption].
      assert (Hpc : strictly_after R previous current) by (apply R_before; assumption).
      constructor; [exact Hs|]. constructor; [exact Hpc|].
      inversion Hs as [|? ? _ Hall]; subst.
      rewrite Forall_forall in *. intros x Hx.
      destruct Hpc as [H1 H2]. destruct (Hall x Hx) as [H3 H4]. split.
      * apply (R_trans x current previous); auto.
      * intros H5. apply H2. apply (R_trans previous x current); auto.
    + injection H as <- <-. repeat constructor.
Qed.

Lemma strictly_rev (l : list A) :
  StronglySorted (strictly_after R) l -> StronglySorted R (rev l).
Proof.
  induction 1 as [|x l Hs IH Hall]; simpl; [constructor|].
  apply StronglySorted_snoc; [exact IH|].
  rewrite Forall_forall in *. intros a Ha. apply in_rev in Ha.
  exact (proj1 (Hall a Ha)).
Qed.

Lemma strictly_filter (l : list A) :
  Forall P l -> StronglySorted (strictly_after R) l -> rev (filter p l) = filter p l.
Proof.
  intros HP. induction 1 as [|x l Hs IH Hall]; [reflexivity|].
  inversion HP as [|? ? Hx HPl]; subst. simpl.
  destruct (p x) eqn:Ex; [|apply IH; exact HPl].
  assert (E : filter p l = []).
  { apply filter_none. rewrite Forall_forall in *. intros a Ha.
    destruct (p a) eqn:Ea; [|reflexivity].
    destruct (Hall a Ha) as [_ Hn]. destruct Hn. apply p_tied; auto. }
  rewrite E. reflexivity.
Qed.

Lemma first_run (l run rest : list A) :
  countAndMakeRun comparefn l = (run, rest) -> Forall P l ->
  StronglySorted R run /\ Forall P run /\ Forall P rest
  /\ (filter p run ++ filter p rest)%list = filter p l.
Proof.
  destruct l as [|first [|second l]]; intros H HP; simpl in H.
  - injection H as <- <-. repeat constructor.
  - injection H as <- <-.
    split; [repeat constructor|]. split; [exact HP|]. split; [constructor|].
    apply app_nil_r.
  - inversion HP as [|? ? Hf HP']; subst. inversion HP' as [|? ? Hsd HPl]; subst.
    destruct (run_tail comparefn (negative (comparefn second first)) second l)
      as [run' rest'] eqn:E.
    pose proof (run_tail_split _ _ _ _ _ E) as Hsplit.
    assert (Hrest : Forall P rest').
    { subst l. apply Forall_app in HPl. exact (proj2 HPl). }
    assert (Hfilter : (filter p (first :: second :: run') ++ filter p rest')%list
                      = filter p (first :: second :: l)).
    { subst l. rewrite <- filter_app. reflexivity. }
    destruct (negative (comparefn second first)) eqn:Hd; injection H as <- <-.
    + destruct (descending_run _ _ _ _ E Hsd HPl) as [Hs Hrun].
      assert (Hfs : strictly_after R first second) by exact (R_before second first Hsd Hf Hd).
      assert (Hwhole : StronglySorted (strictly_after R) (first :: second :: run')).
      { constructor; [exact Hs|]. constructor; [exact Hfs|].
        inversion Hs as [|? ? _ Hall]; subst.
        rewrite Forall_forall in *. intros x Hx.
        destruct Hfs as [H1 H2]. destruct (Hall x Hx) as [H3 H4]. split.
        - apply (R_trans x second first); auto.
        - intros H5. apply H2. apply (R_trans first x second); auto. }
      assert (HPw : Forall P (first :: second :: run')) by (repeat constructor; assumption).
      change ((rev run' ++ [second]) ++ [first])%list
        with (rev (first :: second :: run')).
      split; [apply strictly_rev; exact Hwhole|].
      split; [apply Forall_rev; exact HPw|]. split; [exact Hrest|].
      rewrite <- Hfilter. f_equal.
      rewrite <- (strictly_filter _ HPw Hwhole). apply filter_rev.
    + destruct (ascending_run _ _ _ _ E Hsd HPl) as [Hs Hrun].
      assert (Hfs : R first second) by exact (R_after second first Hsd Hf Hd).
      split; [|split; [repeat constructor; assumption | split; assumption]].
      constructor; [exact Hs|]. constructor; [exact Hfs|].
      inversion Hs as [|? ? _ Hall]; subst.
      rewrite Forall_forall in *. intros x Hx.
      apply (R_trans first second x); auto.
Qed.

Lemma search_spec (pivot : A) (sorted : list A) :
  StronglySorted R sorted -> Forall P sorted -> P pivot ->
  forall steps left right,
    (left <= right)%nat -> (right <= List.length sorted)%nat ->
    (right - left <= steps)%nat ->
    (forall j e, (j < left)%nat -> nth_error sorted j = Some e -> R e pivot) ->
    (forall j e, (right <= j)%nat -> nth_error sorted j = Some e ->
                 strictly_after R e pivot) ->
    let n := search comparefn steps pivot sorted left right in
    (forall j e, (j < n)%nat -> nth_error sorted j = Some e -> R e pivot)
    /\ (forall j e, (n <= j)%nat -> nth_error sorted j = Some e ->
                    strictly_after R e pivot).
Proof.
  intros Hs HP Hp. induction steps as [|steps IH];
    intros left right Hlr Hr Hst Hl Hg; cbv zeta; cbn [search].
  - split; [exact Hl|]. intros j e Hj. apply Hg. lia.
  - destruct (Nat.ltb_spec left right) as [Hlt|Hge].
    2:{ split; [exact Hl|]. intros j e Hj. apply Hg. lia. }
    set (mid := (left + (right - left) / 2)%nat).
    assert (Hmid : (left <= mid < right)%nat).
    { unfold mid. split; [lia|].
      assert ((right - left) / 2 < right - left)%nat
        by (apply Nat.div_lt; lia). lia. }
    destruct (nth_error sorted mid) as [e|] eqn:Ee.
    2:{ apply nth_error_None in Ee. lia. }
    assert (Pe : P e).
    { rewrite Forall_forall in HP. apply HP. apply nth_error_In in Ee. exact Ee. }
    assert (Pat : forall j x, nth_error sorted j = Some x -> P x).
    { intros j x Hx. rewrite Forall_forall in HP. apply HP.
      apply nth_error_In in Hx. exact Hx. }
    destruct (negative (comparefn pivot e)) eqn:En.
    + destruct (R_before pivot e Hp Pe En) as [H1 H2].
      apply IH; [lia | lia | lia | exact Hl |].
      intros j x Hj Hx.
      destruct (Nat.eq_dec j mid) as [->|Hne].
      * rewrite Ee in Hx. injection Hx as <-. split; assumption.
      * assert (Hex : R e x) by (apply (StronglySorted_nth R _ Hs mid j); [lia|assumption|assumption]).
        split.
        -- apply (R_trans pivot e x); eauto.
        -- intros H3. apply H2. apply (R_trans e x pivot); eauto.
    + pose proof (R_after pivot e Hp Pe En) as H1.
      apply IH; [lia | lia | lia | | exact Hg].
      intros j x Hj Hx.
      destruct (Nat.eq_dec j mid) as [->|Hne].
      * rewrite Ee in Hx. injection Hx as <-. exact H1.
      * assert (Hxe : R x e) by (apply (StronglySorted_nth R _ Hs j mid); [lia|assumption|assumption]).
        apply (R_trans x e pivot); eauto.
Qed.

Lemma binaryInsert_sorted (sorted : list A) (pivot : A) :
  StronglySorted R sorted -> Forall P sorted -> P pivot ->
  StronglySorted R (binaryInsert comparefn sorted pivot)
  /\ Forall P (binaryInsert comparefn sorted pivot)
  /\ filter p (binaryInsert comparefn sorted pivot) = filter p (sorted ++ [pivot]).
Proof.
  intros Hs HP Hp. unfold binaryInsert.
  destruct (search_spec pivot sorted Hs HP Hp (List.length sorted) 0
              (List.length sorted)) as [Hl Hg].
  - lia.
  - lia.
  - lia.
  - intros j e Hj. lia.
  - intros j e Hj He. assert (j < List.length sorted)%nat
      by (apply nth_error_Some; congruence). lia.
  - set (n := search comparefn _ pivot sorted 0 _) in *.
    pose proof (Forall_firstn_nth (fun e => R e pivot) n sorted Hl) as H1.
    pose proof (Forall_skipn_nth (fun e => strictly_after R e pivot) n sorted Hg) as H2.
    assert (HP1 : Forall P (firstn n sorted)).
    { rewrite <- (firstn_skipn n sorted) in HP. apply Forall_app in HP. exact (proj1 HP). }
    assert (HP2 : Forall P (skipn n sorted)).
    { rewrite <- (firstn_skipn n sorted) in HP. apply Forall_app in HP. exact (proj2 HP). }
    split; [|split].
    + apply StronglySorted_insert.
      * rewrite firstn_skipn. exact Hs.
      * exact H1.
      * revert H2. apply Forall_impl. intros a [Ha _]. exact Ha.
    + apply Forall_app. split; [exact HP1 | constructor; assumption].
    + rewrite <- (firstn_skipn n sorted) at 3.
      rewrite !filter_app. simpl.
      destruct (p pivot) eqn:Epv.
      * assert (E : filter p (skipn n sorted) = []).
        { apply filter_none. rewrite Forall_forall in *. intros a Ha.
          destruct (p a) eqn:Ea; [|reflexivity].
          destruct (H2 a Ha) as [_ Hn]. destruct Hn. apply p_tied; auto. }
        rewrite E. rewrite app_nil_r. reflexivity.
      * rewrite !app_nil_r. reflexivity.
Qed.

Lemma fold_binaryInsert_sorted (rest run : list A) :
  StronglySorted R run -> Forall P run -> Forall P rest ->
  StronglySorted R (fold_left (binaryInsert comparefn) rest run)
  /\ filter p (fold_left (binaryInsert comparefn) rest run)
     = filter p (run ++ rest).
Proof.
  revert run. induction rest as [|x rest IH]; intros run Hs HP Hr; simpl.
  - rewrite app_nil_r. split; [exact Hs | reflexivity].
  - inversion Hr as [|? ? Hx Hr']; subst.
    destruct (binaryInsert_sorted run x Hs HP Hx) as [Hs' [HP' Hf]].
    destruct (IH _ Hs' HP' Hr') as [Hs'' Hf'']. split; [exact Hs''|].
    rewrite Hf'', !filter_app, Hf, filter_app, <- app_assoc.
    change (x :: rest) with ([x] ++ rest)%list. rewrite filter_app. reflexivity.
Qed.

Lemma sort_consistent (l : list A) :
  Forall P l ->
  StronglySorted R (sort comparefn l)
  /\ filter p (sort comparefn l) = filter p l.
Proof.
  intros HP. unfold sort.
  destruct (countAndMakeRun comparefn l) as [run rest] eqn:E.
  destruct (first_run _ _ _ E HP) as [Hs [HPr [HPrest Hf]]].
  destruct (fold_binaryInsert_sorted rest run Hs HPr HPrest) as [Hs' Hf'].
  split; [exact Hs'|]. rewrite Hf', filter_app. exact Hf.
Qed.
End Consistent.

(** The two halves of [sort_consistent], for use one at a time. *)
Lemma sort_StronglySorted (R : A -> A -> Prop) (P : A -> Prop) :
  (forall x y, P x -> P y -> negative (comparefn x y) = true ->
               R x y /\ ~ R y x) ->
  (forall x y, P x -> P y -> negative (comparefn x y) = false -> R y x) ->
  (forall x y z, P x -> P y -> P z -> R x y -> R y z -> R x z) ->
  forall l, Forall P l -> StronglySorted R (sort comparefn l).
Proof.
  intros Hb Ha Ht l HP.
  refine (proj1 (sort_consistent R P Hb Ha Ht (fun _ => false) _ l HP)).
  intros x y _ _ H. discriminate H.
Qed.

Lemma filter_sort (R : A -> A -> Prop) (P : A -> Prop) (p : A -> bool) :
  (forall x y, P x -> P y -> negative (comparefn x y) = true ->
               R x y /\ ~ R y x) ->
  (forall x y, P x -> P y -> negative (comparefn x y) = false -> R y x) ->
  (forall x y z, P x -> P y -> P z -> R x y -> R y z -> R x z) ->
  (forall x y, P x -> P y -> p x = true -> p y = true -> R x y) ->
  forall l, Forall P l -> filter p (sort comparefn l) = filter p l.
Proof.
  intros Hb Ha Ht Hp l HP.
  exact (proj2 (sort_consistent R P Hb Ha Ht p Hp l HP)).
Qed.

Lemma sort_Forall (Q' : A -> Prop) (l : list A) :
  Forall Q' l -> Forall Q' (sort comparefn l).
Proof.
  intros Hl.
  apply (Permutation_Forall (Permutation_sym (sort_Permutation l))).
  exact Hl.
Qed.
End SortFacts.
End JsArrayFacts.

(** ** Numbers *)

Lemma Qlt_bool_iff (x y : Q) : Qlt_bool x y = true <-> (x < y)%Q.
Proof.
  unfold Qlt_bool. rewrite negb_true_iff. split.
  - intros H. apply Qnot_le_lt. intros Hle.
    apply Qle_bool_iff in Hle. congruence.
  - intros H. destruct (Qle_bool y x) eqn:E; [|reflexivity].
    apply Qle_bool_iff in E. apply Qle_not_lt in E. contradiction.
Qed.

Lemma Qlt_bool_false_iff (x y : Q) : Qlt_bool x y = false <-> (y <= x)%Q.
Proof.
  unfold Qlt_bool. rewrite negb_false_iff. apply Qle_bool_iff.
Qed.

Lemma negative_Some (q : Q) : JsArray.negative (Some q) = true <-> (q < 0)%Q.
Proof. apply (Qlt_bool_iff q 0). Qed.

Lemma negative_Some_false (q : Q) :
  JsArray.negative (Some q) = false <-> (0 <= q)%Q.
Proof. apply (Qlt_bool_false_iff q 0). Qed.

Lemma lt_number_Some (v y : Q) : lt_number (Some v) y = Qlt_bool v y.
Proof. reflexivity. Qed.

Lemma lt_number_false_iff (x : option Q) (y : Q) :
  lt_number x y = false <-> not_below y x.
Proof.
  destruct x as [v|]; simpl.
  - apply Qlt_bool_false_iff.
  - split; auto.
Qed.

(** ** Watchlist parsing *)

(** C4. For every input string the watchlist computed by
    [applyCustomWatchlist] is the input split on commas, each token
    trimmed and uppercased, the empty tokens dropped; the empty and the
    all-blank input give the empty watchlist, and ["aapl, msft ,, nvda"]
    gives AAPL, MSFT, NVDA. *)
Theorem parseCustomWatchlist_correct :
  (forall value, parseCustomWatchlist value = parseWatchlist_spec value)
  /\ parseCustomWatchlist EmptyString = []
  /\ parseCustomWatchlist "   " = []
  /\ parseCustomWatchlist "aapl, msft ,, nvda" = ["AAPL"; "MSFT"; "NVDA"].
Proof.
  split; [|repeat split; reflexivity].
  intros value. unfold parseCustomWatchlist, parseWatchlist_spec.
  change (filter JsString.truthy
            (map JsString.toUpperCase
               (map JsString.trim (JsString.split_comma value))))
    with (tokens (JsString.split_comma value)).
  rewrite <- (JsStringFacts.tokens_trim value).
  destruct (JsString.truthy (JsString.trim value)) eqn:E.
  - unfold tokens. rewrite map_map. reflexivity.
  - apply JsStringFacts.truthy_false in E. rewrite E. reflexivity.
Qed.

(** ** Trade filter and sort *)

Section TradePipeline.
Variable Date_parse : string -> option Z.
Variable parseFloat : string -> option Q.

Lemma renderForm4Table_globals (st : App) :
  filteredTrades (renderForm4Table st) = filteredTrades st
  /\ tradesData (renderForm4Table st) = tradesData st
  /\ form8kData (renderForm4Table st) = form8kData st
  /\ customWatchlistTickers (renderForm4Table st) = customWatchlistTickers st
  /\ form8kSortOrder (renderForm4Table st) = form8kSortOrder st
  /\ statsPanel (renderForm4Table st) = statsPanel st.
Proof.
  unfold renderForm4Table.
  destruct (List.length (filteredTrades st) =? 0)%nat; repeat split.
Qed.

Lemma renderForm8kTable_globals (st : App) :
  filteredTrades (renderForm8kTable Date_parse st) = filteredTrades st
  /\ tradesData (renderForm8kTable Date_parse st) = tradesData st
  /\ form8kData (renderForm8kTable Date_parse st) = form8kData st
  /\ customWatchlistTickers (renderForm8kTable Date_parse st)
     = customWatchlistTickers st
  /\ form4Body (renderForm8kTable Date_parse st) = form4Body st
  /\ statsPanel (renderForm8kTable Date_parse st) = statsPanel st.
Proof.
  unfold renderForm8kTable.
  destruct (List.length (displayForm8k Date_parse st) =? 0)%nat; repeat split.
Qed.

Lemma applyFilters_filteredTrades (st : App) :
  filteredTrades (applyFilters Date_parse parseFloat st) =
  JsArray.sort (compareTrades Date_parse (sortBy (controls st)))
    (filter
       (keepTrade (filterType (controls st))
          (JsString.toUpperCase (filterTicker (controls st)))
          (customWatchlistTickers st)
          (or_zero (parseFloat (filterMinValue (controls st)))))
       (tradesData st)).
Proof.
  unfold applyFilters.
  rewrite (proj1 (renderForm8kTable_globals _)).
  rewrite (proj1 (renderForm4Table_globals _)). reflexivity.
Qed.

Lemma applyFilters_tradesData (st : App) :
  tradesData (applyFilters Date_parse parseFloat st) = tradesData st.
Proof.
  unfold applyFilters.
  rewrite (proj1 (proj2 (renderForm8kTable_globals _))).
  rewrite (proj1 (proj2 (renderForm4Table_globals _))). reflexivity.
Qed.

End TradePipeline.

Lemma keepTrade_andb (type ticker : string) (watchlist : list string)
    (minValue : Q) (trade : Trade.t) :
  keepTrade type ticker watchlist minValue trade =
  keepTrade_unrestricted type ticker minValue trade
  && watchlist_passes watchlist (Trade.symbol trade).
Proof.
  unfold keepTrade, keepTrade_unrestricted, watchlist_passes.
  destruct (String.eqb type "all"), (String.eqb (Trade.type trade) type),
    (JsString.truthy ticker), (JsString.includes (Trade.symbol trade) ticker),
    (lt_number (Trade.totalValue trade) minValue);
    destruct watchlist as [|w ws]; cbn [List.length Nat.ltb Nat.leb negb andb orb];
    try reflexivity;
    destruct (JsArray.includes (w :: ws) (Trade.symbol trade)); reflexivity.
Qed.

Lemma watchlist_passes_iff (watchlist : list string) (sym : string) :
  watchlist_passes watchlist sym = true <-> watchlistRule watchlist sym.
Proof.
  unfold watchlist_passes, watchlistRule. destruct watchlist as [|w ws].
  - split; auto.
  - rewrite JsArrayFacts.includes_In. split; [auto|].
    intros [H|H]; [discriminate | exact H].
Qed.

Lemma toUpperCase_empty (s : string) :
  JsString.toUpperCase s = EmptyString <-> s = EmptyString.
Proof. destruct s; simpl; split; congruence. Qed.

Lemma keepTrade_iff (type tickerSubstring : string) (watchlist : list string)
    (minValue : Q) (r : Trade.t) :
  keepTrade type (JsString.toUpperCase tickerSubstring) watchlist minValue r = true
  <-> filterPredicate type tickerSubstring watchlist minValue r.
Proof.
  rewrite keepTrade_andb. unfold keepTrade_unrestricted, filterPredicate.
  rewrite !andb_true_iff, !orb_true_iff, !negb_true_iff, !String.eqb_eq.
  rewrite watchlist_passes_iff, lt_number_false_iff, JsStringFacts.includes_app.
  fold (contains (Trade.symbol r) (JsString.toUpperCase tickerSubstring)).
  assert (E : JsString.truthy (JsString.toUpperCase tickerSubstring) = false
              <-> tickerSubstring = EmptyString).
  { rewrite <- toUpperCase_empty. split.
    - apply JsStringFacts.truthy_false.
    - intros ->. reflexivity. }
  rewrite E. tauto.
Qed.

(** The comparators of the trade sort against the orders they stand
    for: by value among the trades that carry one, by shares. *)
Lemma compareTrades_value_before (Date_parse : string -> option Z)
    (x y : Trade.t) :
  valued x -> valued y ->
  JsArray.negative (compareTrades Date_parse "value" x y) = true ->
  value_descending x y /\ ~ value_descending y x.
Proof.
  unfold valued, compareTrades, value_descending. simpl String.eqb.
  destruct (Trade.totalValue x) as [vx|], (Trade.totalValue y) as [vy|];
    try congruence.
  intros _ _ H. apply negative_Some in H. split; lra.
Qed.

Lemma compareTrades_value_after (Date_parse : string -> option Z)
    (x y : Trade.t) :
  valued x -> valued y ->
  JsArray.negative (compareTrades Date_parse "value" x y) = false ->
  value_descending y x.
Proof.
  unfold valued, compareTrades, value_descending. simpl String.eqb.
  destruct (Trade.totalValue x) as [vx|], (Trade.totalValue y) as [vy|];
    try congruence.
  intros _ _ H. apply negative_Some_false in H. lra.
Qed.

Lemma value_descending_trans (x y z : Trade.t) :
  valued x -> valued y -> valued z ->
  value_descending x y -> value_descending y z -> value_descending x z.
Proof.
  unfold valued, value_descending.
  destruct (Trade.totalValue x), (Trade.totalValue y), (Trade.totalValue z);
    try congruence.
  intros _ _ _ H1 H2. lra.
Qed.

Lemma compareTrades_shares_before (Date_parse : string -> option Z)
    (x y : Trade.t) :
  JsArray.negative (compareTrades Date_parse "shares" x y) = true ->
  shares_descending x y /\ ~ shares_descending y x.
Proof.
  unfold compareTrades, shares_descending. simpl String.eqb.
  intros H. apply negative_Some in H. split; lra.
Qed.

Lemma compareTrades_shares_after (Date_parse : string -> option Z)
    (x y : Trade.t) :
  JsArray.negative (compareTrades Date_parse "shares" x y) = false ->
  shares_descending y x.
Proof.
  unfold compareTrades, shares_descending. simpl String.eqb.
  intros H. apply negative_Some_false in H. lra.
Qed.

(** C1, as the code has it. Whatever the trades and the criteria, every
    record of [filteredTrades] after [applyFilters] satisfies the four
    filter conditions as the filter tests them (its type is the one
    asked for or every type is, the uppercased ticker text is empty or
    occurs in its symbol, the watchlist is empty or holds its symbol, and
    its [totalValue] is not below the minimum, which a record without
    [totalValue] satisfies); and [filteredTrades] is a permutation of
    exactly the records of [tradesData] that satisfy them: none added,
    none dropped beyond the predicate, none duplicated. [tradesData] is
    left as it was. *)
Theorem applyFilters_filter_permutation :
  forall (Date_parse : string -> option Z) (parseFloat : string -> option Q)
         (st : App),
    let type := filterType (controls st) in
    let tickerSubstring := filterTicker (controls st) in
    let watchlist := customWatchlistTickers st in
    let minValue := or_zero (parseFloat (filterMinValue (controls st))) in
    let keep :=
      keepTrade type (JsString.toUpperCase tickerSubstring) watchlist minValue in
    let out := filteredTrades (applyFilters Date_parse parseFloat st) in
    Forall (filterPredicate type tickerSubstring watchlist minValue) out
    /\ (forall r, keep r = true
                  <-> filterPredicate type tickerSubstring watchlist minValue r)
    /\ Permutation out (filter keep (tradesData st))
    /\ tradesData (applyFilters Date_parse parseFloat st) = tradesData st.
Proof.
  intros Date_parse parseFloat st type tickerSubstring watchlist minValue keep out.
  assert (Hperm : Permutation out (filter keep (tradesData st))).
  { unfold out. rewrite applyFilters_filteredTrades.
    apply JsArrayFacts.sort_Permutation. }
  split; [|split; [|split]].
  - apply (Permutation_Forall (Permutation_sym Hperm)).
    rewrite Forall_forall. intros r Hr. apply filter_In in Hr.
    apply keepTrade_iff. exact (proj2 Hr).
  - intros r. apply keepTrade_iff.
  - exact Hperm.
  - apply applyFilters_tradesData.
Qed.

(** C8, as the code has it. When the sort key is [value] and every
    trade listed carries a [totalValue], the sort is stable: the trades
    with one and the same [totalValue] appear in [filteredTrades] in the
    relative order they have in [tradesData]. *)
Theorem applyFilters_value_sort_stable :
  forall (Date_parse : string -> option Z) (parseFloat : string -> option Q)
         (st : App) (v : Q),
    sortBy (controls st) = "value" ->
    Forall valued (filteredTrades (applyFilters Date_parse parseFloat st)) ->
    filter (has_totalValue v)
      (filteredTrades (applyFilters Date_parse parseFloat st))
    = filter (has_totalValue v)
        (filter
           (keepTrade (filterType (controls st))
              (JsString.toUpperCase (filterTicker (controls st)))
              (customWatchlistTickers st)
              (or_zero (parseFloat (filterMinValue (controls st)))))
           (tradesData st)).
Proof.
  intros Date_parse parseFloat st v Hkey.
  rewrite applyFilters_filteredTrades, Hkey. intros Hvalued.
  apply (JsArrayFacts.filter_sort _ value_descending valued).
  - apply compareTrades_value_before.
  - apply compareTrades_value_after.
  - apply value_descending_trans.
  - intros x y _ _. unfold has_totalValue, value_descending.
    destruct (Trade.totalValue x), (Trade.totalValue y); try discriminate.
    intros Hx Hy. apply Qeq_bool_iff in Hx, Hy. lra.
  - revert Hvalued. apply Permutation_Forall, JsArrayFacts.sort_Permutation.
Qed.

(** ** Filing filter and sort *)

Lemma negative_inject_Z (z : Z) :
  JsArray.negative (Some (inject_Z z)) = (z <? 0)%Z.
Proof.
  destruct (Z.ltb_spec z 0) as [H|H].
  - apply negative_Some. rewrite Zlt_Qlt in H. exact H.
  - apply negative_Some_false. rewrite Zle_Qle in H. exact H.
Qed.

Lemma negative_date_diff (Date_parse : string -> option Z) (a b : string) :
  JsArray.negative (date_diff Date_parse a b) =
  match Date_parse a, Date_parse b with
  | Some x, Some y => (x <? y)%Z
  | _, _ => false
  end.
Proof.
  unfold date_diff. destruct (Date_parse a) as [x|], (Date_parse b) as [y|];
    try reflexivity.
  rewrite negative_inject_Z.
  destruct (Z.ltb_spec (x - y) 0), (Z.ltb_spec x y); try reflexivity; lia.
Qed.

Lemma compareFilings_before (Date_parse : string -> option Z) (order : string)
    (x y : Filing.t) :
  JsArray.negative (compareFilings Date_parse order x y) = true ->
  filing_order Date_parse order x y /\ ~ filing_order Date_parse order y x.
Proof.
  unfold compareFilings, filing_order, filed_no_later.
  destruct (String.eqb order "newest"); rewrite negative_date_diff;
    destruct (Date_parse (Filing.filedDate x)), (Date_parse (Filing.filedDate y));
    try discriminate; intros H; apply Z.ltb_lt in H; split; lia.
Qed.

Lemma compareFilings_after (Date_parse : string -> option Z) (order : string)
    (x y : Filing.t) :
  JsArray.negative (compareFilings Date_parse order x y) = false ->
  filing_order Date_parse order y x.
Proof.
  unfold compareFilings, filing_order, filed_no_later.
  destruct (String.eqb order "newest"); rewrite negative_date_diff;
    destruct (Date_parse (Filing.filedDate x)), (Date_parse (Filing.filedDate y));
    try exact (fun _ => I); intros H; apply Z.ltb_ge in H; exact H.
Qed.

Lemma filing_order_trans (Date_parse : string -> option Z) (order : string)
    (x y z : Filing.t) :
  filed_valid Date_parse y ->
  filing_order Date_parse order x y -> filing_order Date_parse order y z ->
  filing_order Date_parse order x z.
Proof.
  unfold filed_valid, filing_order, filed_no_later.
  destruct (String.eqb order "newest");
    destruct (Date_parse (Filing.filedDate x)), (Date_parse (Filing.filedDate y)),
      (Date_parse (Filing.filedDate z)); intros; try exact I; try congruence; lia.
Qed.

Lemma displayForm8k_unfold (Date_parse : string -> option Z) (st : App) :
  displayForm8k Date_parse st =
  JsArray.sort (compareFilings Date_parse (form8kSortOrder st))
    (filter (fun f => watchlist_passes (customWatchlistTickers st) (Filing.symbol f))
       (form8kData st)).
Proof.
  unfold displayForm8k, watchlist_passes.
  destruct (customWatchlistTickers st) as [|w ws]; simpl.
  - f_equal. induction (form8kData st) as [|f l IH]; simpl; congruence.
  - reflexivity.
Qed.

(** C6, as the code has it. For every filings list, watchlist and sort
    order, the filings shown are exactly those passing the watchlist
    rule (all of them when the watchlist is empty, the exact symbol
    members otherwise); and when the [filedDate] of every filing shown
    parses as a date, they are ordered by it: newest first under
    ['newest'], oldest first under ['oldest']. *)
Theorem displayForm8k_filter_sorted :
  forall (Date_parse : string -> option Z) (st : App),
    let watchlist := customWatchlistTickers st in
    let order := form8kSortOrder st in
    let out := displayForm8k Date_parse st in
    Permutation out
      (filter (fun f => watchlist_passes watchlist (Filing.symbol f))
         (form8kData st))
    /\ (forall sym, watchlist_passes watchlist sym = true
                    <-> watchlistRule watchlist sym)
    /\ (Forall (filed_valid Date_parse) out ->
        StronglySorted (filing_order Date_parse order) out)
    /\ (forall a b, filing_order Date_parse "newest" a b
                    <-> filed_no_later Date_parse b a)
    /\ (forall a b, filing_order Date_parse "oldest" a b
                    <-> filed_no_later Date_parse a b).
Proof.
  intros Date_parse st watchlist order out.
  unfold out. rewrite displayForm8k_unfold.
  split; [apply JsArrayFacts.sort_Permutation|].
  split; [intros sym; apply watchlist_passes_iff|].
  split; [|split; intros a b; reflexivity].
  intros Hvalid.
  apply (JsArrayFacts.sort_StronglySorted _ _ (filed_valid Date_parse)).
  - intros x y _ _. apply compareFilings_before.
  - intros x y _ _. apply compareFilings_after.
  - intros x y z _ Hy _. apply filing_order_trans. exact Hy.
  - revert Hvalid. apply Permutation_Forall, JsArrayFacts.sort_Permutation.
Qed.

(** ** The default watchlist *)

(** C5, as the code has it. With no override the watchlist is the empty
    list, not [DEFAULT_WATCHLIST] (a list of 77 symbols that nothing
    reads), and the empty watchlist restricts nothing: the trades kept
    are those passing the type, ticker and minimum-value conditions, and
    every filing is shown, whatever the symbol. *)
Theorem empty_watchlist_unrestricted :
  forall (Date_parse : string -> option Z) (parseFloat : string -> option Q)
         (st : App) (c : Controls),
    let st0 := set_customWatchlistTickers [] st in
    customWatchlistTickers (initial c) = []
    /\ List.length DEFAULT_WATCHLIST = 77%nat
    /\ Permutation (filteredTrades (applyFilters Date_parse parseFloat st0))
         (filter
            (keepTrade_unrestricted (filterType (controls st))
               (JsString.toUpperCase (filterTicker (controls st)))
               (or_zero (parseFloat (filterMinValue (controls st)))))
            (tradesData st))
    /\ Permutation (displayForm8k Date_parse st0) (form8kData st).
Proof.
  intros Date_parse parseFloat st c st0.
  split; [reflexivity|]. split; [reflexivity|]. split.
  - rewrite applyFilters_filteredTrades. rewrite JsArrayFacts.sort_Permutation.
    unfold st0. simpl.
    erewrite filter_ext; [reflexivity|].
    intros t. rewrite keepTrade_andb. simpl. apply andb_true_r.
  - unfold displayForm8k, st0. simpl. apply JsArrayFacts.sort_Permutation.
Qed.

(** ** Value histogram *)

Lemma bucket_of_in_range (v : Q) (b : Bucket) :
  bucket_of (Some v) = b <-> in_range b v.
Proof.
  unfold bucket_of, lt_number.
  repeat match goal with
  | |- context [if Qlt_bool ?x ?y then _ else _] =>
      let H := fresh "H" in
      destruct (Qlt_bool x y) eqn:H;
      [apply Qlt_bool_iff in H | apply Qlt_bool_false_iff in H]
  end;
  destruct b; simpl; split; intros E;
    try discriminate; try reflexivity; try lra.
Qed.

Lemma Bucket_eqb_refl (b : Bucket) : Bucket_eqb b b = true.
Proof. destruct b; reflexivity. Qed.

Lemma valueBuckets_fold (trades : list Trade.t) (acc : ValueBuckets) (b : Bucket) :
  fold_left (fun a t => increment (bucket_of (Trade.totalValue t)) a) trades acc b
  = (acc b
     + List.length
         (filter (fun t => Bucket_eqb b (bucket_of (Trade.totalValue t))) trades))%nat.
Proof.
  revert acc. induction trades as [|t l IH]; intros acc; simpl.
  - lia.
  - rewrite IH. unfold increment.
    destruct (Bucket_eqb b (bucket_of (Trade.totalValue t))); simpl; lia.
Qed.

Lemma increment_total (k : Bucket) (acc : ValueBuckets) :
  list_sum (map (increment k acc) all_buckets)
  = S (list_sum (map acc all_buckets)).
Proof. destruct k; unfold increment; simpl; lia. Qed.

Lemma valueBuckets_total (trades : list Trade.t) (acc : ValueBuckets) :
  list_sum
    (map (fold_left (fun a t => increment (bucket_of (Trade.totalValue t)) a)
            trades acc) all_buckets)
  = (list_sum (map acc all_buckets) + List.length trades)%nat.
Proof.
  revert acc. induction trades as [|t l IH]; intros acc.
  - simpl. lia.
  - cbn [fold_left List.length]. rewrite IH, increment_total. lia.
Qed.

(** C7, as the code has it. The value histogram puts every trade in
    exactly one of the six buckets. A trade that carries a [totalValue]
    goes by the intervals below 50000, [50000,100000), [100000,500000),
    [500000,1000000), [1000000,5000000) and 5000000 or more, a value of
    exactly 50000 counting in [50000,100000) and a value of exactly
    5000000 in the last bucket; a trade without [totalValue] is counted
    in the last bucket too. The six counts, taken over the whole of
    [tradesData], add up to the number of trades. The value chart is
    given them when [renderCharts] draws the charts; once the charts are
    drawn it keeps the data it has. *)
Theorem valueBuckets_partition :
  forall st : App,
    let trades := tradesData st in
    (forall v b, bucket_of (Some v) = b <-> in_range b v)
    /\ bucket_of None = Over5M
    /\ (forall b,
          valueBuckets trades b =
          List.length
            (filter (fun t => Bucket_eqb b (bucket_of (Trade.totalValue t))) trades))
    /\ list_sum (map (valueBuckets trades) all_buckets) = List.length trades
    /\ bucket_of (Some 50000) = From50K
    /\ bucket_of (Some 5000000) = Over5M
    /\ option_map value (charts (after_charts st (renderCharts st)))
       = match charts st with
         | None =>
             Some (map (fun b => (bucket_label b, valueBuckets trades b))
                     all_buckets)
         | Some drawn => Some (value drawn)
         end.
Proof.
  intros st trades.
  split; [apply bucket_of_in_range|].
  split; [reflexivity|].
  split; [intros b; unfold valueBuckets; rewrite valueBuckets_fold; reflexivity|].
  split; [unfold valueBuckets; rewrite valueBuckets_total; reflexivity|].
  split; [reflexivity|]. split; [reflexivity|].
  unfold renderCharts. destruct (charts st) as [drawn|] eqn:E; simpl.
  - rewrite E. reflexivity.
  - reflexivity.
Qed.

(** ** Item-code explanations *)

Lemma push_description_app (descriptions : list string) (item : string) :
  push_description descriptions item = (descriptions ++ line_of item)%list.
Proof.
  unfold push_description, line_of.
  destruct (itemExplanations_at (JsString.trim item));
    [reflexivity | symmetry; apply app_nil_r].
Qed.

Lemma fold_push_description (items descriptions : list string) :
  fold_left push_description items descriptions
  = (descriptions ++ flat_map line_of items)%list.
Proof.
  revert descriptions. induction items as [|item items IH]; intros descriptions.
  - symmetry. apply app_nil_r.
  - cbn [fold_left flat_map]. rewrite IH, push_description_app, app_assoc.
    reflexivity.
Qed.

Lemma get8KExplanation_unfold (filing : Filing.t) :
  get8KExplanation filing =
  if has_items (Filing.items filing) then
    match flat_map line_of (parsed_items (Filing.items filing)) with
    | [] => default_explanation
    | descriptions => explanation_block descriptions
    end
  else default_explanation.
Proof.
  unfold get8KExplanation. rewrite fold_push_description. cbn [app].
  destruct (has_items (Filing.items filing)); [|reflexivity].
  destruct (flat_map line_of (parsed_items (Filing.items filing)));
    reflexivity.
Qed.

Lemma line_of_nil (item : string) :
  line_of item = [] <-> itemExplanations_at (JsString.trim item) = None.
Proof.
  unfold line_of.
  destruct (itemExplanations_at (JsString.trim item));
    split; try reflexivity; discriminate.
Qed.

Lemma flat_map_line_nil (items : list string) :
  flat_map line_of items = []
  <-> Forall (fun item => itemExplanations_at (JsString.trim item) = None) items.
Proof.
  induction items as [|item items IH]; cbn [flat_map].
  - split; [constructor | reflexivity].
  - rewrite Forall_cons_iff, <- IH, <- line_of_nil. split.
    + apply app_eq_nil.
    + intros [-> ->]. reflexivity.
Qed.

Lemma no_items_no_line (i : ItemsField) :
  has_items i = false ->
  Forall (fun item => itemExplanations_at (JsString.trim item) = None)
    (parsed_items i).
Proof.
  destruct i as [|s|l]; simpl.
  - constructor.
  - intros H. apply JsStringFacts.truthy_false in H. subst.
    repeat constructor.
  - destruct l; [constructor | discriminate].
Qed.

Lemma explanation_block_not_default (descriptions : list string) :
  explanation_block descriptions <> default_explanation.
Proof. discriminate. Qed.

Lemma itemExplanations_at_None (key : string) :
  itemExplanations_at key = None
  <-> explanation_of itemExplanations key = None /\ inherited_name key = false.
Proof.
  unfold itemExplanations_at.
  destruct (explanation_of itemExplanations key).
  - split; [discriminate | intros [H _]; discriminate].
  - destruct (inherited_name key); split; try discriminate; auto.
    intros [_ H]. discriminate.
Qed.

(** C2 against the code. [get8KExplanation] returns a non-empty string
    for every filing, whether [items] is absent, a string or an array,
    and the fallback text "Material company event requiring SEC
    disclosure" exactly when the lookup [itemExplanations[code]] finds
    nothing for any item. But the lookup does not only find the codes of
    the table: it finds every name that an object inherits, too. For the
    items [["constructor"]] no code matches the table, and the filing is
    explained by a line that holds the source text of a built-in
    function instead of the fallback text. *)
Theorem get8KExplanation_total :
  forall filing : Filing.t,
    get8KExplanation filing <> EmptyString
    /\ (get8KExplanation filing = default_explanation
        <-> Forall (fun item => itemExplanations_at (JsString.trim item) = None)
              (parsed_items (Filing.items filing)))
    /\ (forall key,
          itemExplanations_at key = None
          <-> explanation_of itemExplanations key = None
              /\ inherited_name key = false)
    /\ default_explanation = "Material company event requiring SEC disclosure"
    /\ (let failing := with_items filing (ItemsArray ["constructor"]) in
        Forall (fun item => item_matches item = false)
          (parsed_items (Filing.items failing))
        /\ get8KExplanation failing
           = explanation_block
               [item_markup "constructor" "function Object() { [native code] }"]
        /\ get8KExplanation failing <> default_explanation).
Proof.
  intros filing. split; [|split; [|split; [|split; [reflexivity|]]]].
  - unfold get8KExplanation.
    destruct (has_items (Filing.items filing)); [|discriminate].
    destruct (0 <? List.length _)%nat; discriminate.
  - rewrite get8KExplanation_unfold.
    destruct (has_items (Filing.items filing)) eqn:Hi.
    + rewrite <- flat_map_line_nil.
      destruct (flat_map line_of (parsed_items (Filing.items filing))).
      * split; reflexivity.
      * split; [intros H; destruct (explanation_block_not_default _ H)
               | discriminate].
    + split; [intros _; apply no_items_no_line; exact Hi | reflexivity].
  - apply itemExplanations_at_None.
  - cbv zeta. split; [repeat constructor|]. split; [reflexivity|].
    apply explanation_block_not_default.
Qed.

(** ** The state each operation leaves *)

Lemma displayForm8k_fields (Date_parse : string -> option Z) (a b : App) :
  form8kData a = form8kData b ->
  customWatchlistTickers a = customWatchlistTickers b ->
  form8kSortOrder a = form8kSortOrder b ->
  displayForm8k Date_parse a = displayForm8k Date_parse b.
Proof. unfold displayForm8k. intros -> -> ->. reflexivity. Qed.

Lemma selectedTrades_fields (Date_parse : string -> option Z)
    (parseFloat : string -> option Q) (a b : App) :
  tradesData a = tradesData b ->
  customWatchlistTickers a = customWatchlistTickers b ->
  controls a = controls b ->
  selectedTrades Date_parse parseFloat a = selectedTrades Date_parse parseFloat b.
Proof. unfold selectedTrades. intros -> -> ->. reflexivity. Qed.

Lemma renderForm4Table_unfold (st : App) :
  renderForm4Table st = set_form4Body (form4_view (filteredTrades st)) st.
Proof.
  unfold renderForm4Table, form4_view.
  destruct (List.length (filteredTrades st) =? 0)%nat; reflexivity.
Qed.

Lemma renderForm8kTable_unfold (Date_parse : string -> option Z) (st : App) :
  renderForm8kTable Date_parse st
  = set_form8kBody (form8k_view (displayForm8k Date_parse st)) st.
Proof.
  unfold renderForm8kTable, form8k_view.
  destruct (List.length (displayForm8k Date_parse st) =? 0)%nat; reflexivity.
Qed.

Lemma applyFilters_unfold (Date_parse : string -> option Z)
    (parseFloat : string -> option Q) (st : App) :
  applyFilters Date_parse parseFloat st =
  mkApp (tradesData st) (form8kData st)
    (selectedTrades Date_parse parseFloat st)
    (customWatchlistTickers st) (form8kSortOrder st) (charts st) (controls st)
    (form4_view (selectedTrades Date_parse parseFloat st))
    (form8k_view (displayForm8k Date_parse st))
    (statsPanel st) (lastUpdate st).
Proof.
  unfold applyFilters. rewrite renderForm8kTable_unfold, renderForm4Table_unfold.
  reflexivity.
Qed.

Lemma views_current_applyFilters (Date_parse : string -> option Z)
    (parseFloat : string -> option Q) (st : App) :
  views_current Date_parse parseFloat (applyFilters Date_parse parseFloat st).
Proof. rewrite applyFilters_unfold. repeat split. Qed.

Lemma form4_view_empty (rows : list Trade.t) :
  form4_view rows = NoTradesMatch <-> rows = [].
Proof.
  unfold form4_view. destruct rows as [|r rows]; simpl; split;
    try reflexivity; discriminate.
Qed.

Lemma form4_view_data (rows : list Trade.t) : form4_view rows <> NoDataAvailable.
Proof. unfold form4_view. destruct (List.length rows =? 0)%nat; discriminate. Qed.

Lemma form8k_view_empty (shown : list Filing.t) :
  form8k_view shown = NoFilingsAvailable <-> shown = [].
Proof.
  unfold form8k_view. destruct shown as [|f shown]; simpl; split;
    try reflexivity; discriminate.
Qed.

Lemma filter_nil_iff {A : Type} (p : A -> bool) (l : list A) :
  filter p l = [] <-> forall x, In x l -> p x = false.
Proof.
  induction l as [|a l IH]; simpl.
  - split; [intros _ x [] | reflexivity].
  - destruct (p a) eqn:Ha.
    + split; [discriminate|]. intros H. specialize (H a (or_introl eq_refl)).
      congruence.
    + rewrite IH. split.
      * intros H x [<-|Hx]; auto.
      * intros H x Hx. apply H. right. exact Hx.
Qed.

Lemma sort_nil_iff {A : Type} (comparefn : A -> A -> option Q) (l : list A) :
  JsArray.sort comparefn l = [] <-> l = [].
Proof.
  split.
  - intros H. apply Permutation_nil.
    rewrite <- H. apply JsArrayFacts.sort_Permutation.
  - intros ->. reflexivity.
Qed.

(** ** Data loading *)

Lemma updateStats_globals (stats : option Stats.t) (st : App) :
  tradesData (updateStats stats st) = tradesData st
  /\ form8kData (updateStats stats st) = form8kData st
  /\ customWatchlistTickers (updateStats stats st) = customWatchlistTickers st
  /\ controls (updateStats stats st) = controls st.
Proof. destruct stats; repeat split. Qed.

(** A run of [loadData] that obtained both documents: the state when
    [renderCharts] is called, and what follows. *)
Lemma loadData_success_unfold (Date_parse : string -> option Z)
    (parseFloat : string -> option Q) (ok1 ok2 : bool)
    (tradesJson : TradesDoc.t) (form8kJson : FilingsDoc.t) (st : App) :
  loadData Date_parse parseFloat (Response ok1 (Some tradesJson))
    (Response ok2 (Some form8kJson)) st
  = let st5 := before_charts Date_parse parseFloat tradesJson form8kJson st in
    match renderCharts st5 with
    | ChartsDrawn st6 =>
        set_lastUpdate
          (LastUpdated (stamp_of (TradesDoc.lastUpdated tradesJson))) st6
    | CanvasInUse _ => set_form4Body NoDataAvailable st5
    end.
Proof.
  unfold loadData, before_charts. cbn [fetched_json].
  rewrite renderForm8kTable_unfold, !applyFilters_unfold. reflexivity.
Qed.

Lemma before_charts_unfold (Date_parse : string -> option Z)
    (parseFloat : string -> option Q)
    (tradesJson : TradesDoc.t) (form8kJson : FilingsDoc.t) (st : App) :
  let trades := or_empty (TradesDoc.trades tradesJson) in
  let filings := or_empty (FilingsDoc.filings form8kJson) in
  let st2 := set_form8kData filings (set_tradesData trades st) in
  let st3 := updateStats (TradesDoc.stats tradesJson) st2 in
  before_charts Date_parse parseFloat tradesJson form8kJson st
  = mkApp trades filings (selectedTrades Date_parse parseFloat st2)
      (customWatchlistTickers st) (form8kSortOrder st) (charts st) (controls st)
      (form4_view (selectedTrades Date_parse parseFloat st2))
      (form8k_view (displayForm8k Date_parse st2))
      (statsPanel st3) (lastUpdate st).
Proof.
  cbv zeta. unfold before_charts. rewrite applyFilters_unfold.
  destruct (TradesDoc.stats tradesJson); reflexivity.
Qed.

(** What a run of [loadData] that obtained both documents leaves. *)
Lemma loadData_success (Date_parse : string -> option Z)
    (parseFloat : string -> option Q) (ok1 ok2 : bool)
    (tradesJson : TradesDoc.t) (form8kJson : FilingsDoc.t) (st : App) :
  let st' := loadData Date_parse parseFloat (Response ok1 (Some tradesJson))
               (Response ok2 (Some form8kJson)) st in
  let st2 := set_form8kData (or_empty (FilingsDoc.filings form8kJson))
               (set_tradesData (or_empty (TradesDoc.trades tradesJson)) st) in
  tradesData st' = or_empty (TradesDoc.trades tradesJson)
  /\ form8kData st' = or_empty (FilingsDoc.filings form8kJson)
  /\ statsPanel st' = statsPanel (updateStats (TradesDoc.stats tradesJson) st2)
  /\ filteredTrades st' = selectedTrades Date_parse parseFloat st2
  /\ form8kBody st' = form8k_view (displayForm8k Date_parse st2)
  /\ form4Body st'
     = (if charts_drawn st then NoDataAvailable
        else form4_view (selectedTrades Date_parse parseFloat st2))
  /\ same_settings st' st.
Proof.
  cbv zeta. rewrite loadData_success_unfold. cbv zeta.
  rewrite before_charts_unfold. cbv zeta.
  unfold renderCharts, charts_drawn, same_settings. cbn [charts].
  destruct (charts st); repeat split.
Qed.

Lemma loadData_settings (Date_parse : string -> option Z)
    (parseFloat : string -> option Q) (tradesFetch : Fetched TradesDoc.t)
    (form8kFetch : Fetched FilingsDoc.t) (st : App) :
  same_settings (loadData Date_parse parseFloat tradesFetch form8kFetch st) st.
Proof.
  destruct tradesFetch as [|ok1 [tradesJson|]];
    [repeat split | | repeat split].
  destruct form8kFetch as [|ok2 [form8kJson|]];
    [repeat split | | repeat split].
  apply loadData_success.
Qed.

Lemma loadData_datasets (Date_parse : string -> option Z)
    (parseFloat : string -> option Q) (tradesFetch : Fetched TradesDoc.t)
    (form8kFetch : Fetched FilingsDoc.t) (st : App) :
  tradesData (loadData Date_parse parseFloat tradesFetch form8kFetch st)
  = match fetched_json tradesFetch with
    | Some tradesJson => or_empty (TradesDoc.trades tradesJson)
    | None => tradesData st
    end
  /\ form8kData (loadData Date_parse parseFloat tradesFetch form8kFetch st)
     = match fetched_json tradesFetch, fetched_json form8kFetch with
       | Some _, Some form8kJson => or_empty (FilingsDoc.filings form8kJson)
       | _, _ => form8kData st
       end.
Proof.
  destruct tradesFetch as [|ok1 [tradesJson|]];
    [repeat split | | repeat split].
  destruct form8kFetch as [|ok2 [form8kJson|]];
    [repeat split | | repeat split].
  cbn [fetched_json].
  destruct (loadData_success Date_parse parseFloat ok1 ok2 tradesJson form8kJson st)
    as [Ht [Hf _]].
  split; assumption.
Qed.

Lemma run_cons (Date_parse : string -> option Z)
    (parseFloat : string -> option Q)
    (tick : Fetched TradesDoc.t * Fetched FilingsDoc.t)
    (ticks : list (Fetched TradesDoc.t * Fetched FilingsDoc.t)) (st : App) :
  run Date_parse parseFloat (tick :: ticks) st
  = run Date_parse parseFloat ticks
      (loadData Date_parse parseFloat (fst tick) (snd tick) st).
Proof. reflexivity. Qed.

Lemma run_snoc (Date_parse : string -> option Z)
    (parseFloat : string -> option Q)
    (ticks : list (Fetched TradesDoc.t * Fetched FilingsDoc.t))
    (tick : Fetched TradesDoc.t * Fetched FilingsDoc.t) (st : App) :
  run Date_parse parseFloat (ticks ++ [tick]) st
  = loadData Date_parse parseFloat (fst tick) (snd tick)
      (run Date_parse parseFloat ticks st).
Proof. unfold run. rewrite fold_left_app. reflexivity. Qed.

Lemma charts_drawn_iff (st : App) : charts_drawn st = true <-> charts st <> None.
Proof.
  unfold charts_drawn. destruct (charts st); split;
    try reflexivity; try discriminate; congruence.
Qed.

(** C3, as the code has it. The figures of the summary panel that come
    from data the page holds are the filing count and the number of
    distinct symbols, both taken over the full [tradesData] and
    [form8kData]; the total value, like the alert, buy and sell counts, is
    the number the feed supplies in the [stats] member of the trades
    document, formatted; and when the document has no [stats] the panel is
    left as it was. *)
Theorem updateStats_from_feed :
  forall (Date_parse : string -> option Z) (parseFloat : string -> option Q)
         (ok1 ok2 : bool) (tradesJson : TradesDoc.t) (form8kJson : FilingsDoc.t)
         (st : App),
    let st' := loadData Date_parse parseFloat (Response ok1 (Some tradesJson))
                 (Response ok2 (Some form8kJson)) st in
    tradesData st' = or_empty (TradesDoc.trades tradesJson)
    /\ form8kData st' = or_empty (FilingsDoc.filings form8kJson)
    /\ statsPanel st' =
       match TradesDoc.stats tradesJson with
       | None => statsPanel st
       | Some stats =>
           mkStatsPanel
             (LocaleNumber (Stats.totalAlerts stats))
             (LocaleNumber (Stats.buys stats))
             (LocaleNumber (Stats.sells stats))
             (Literal (formatTotalValue (Stats.totalValue stats)))
             (LocaleNumber (of_length (form8kData st')))
             (LocaleNumber
                (inject_Z (Z.of_nat
                   (distinct_count
                      (map Trade.symbol (tradesData st')
                       ++ map Filing.symbol (form8kData st'))))))
       end.
Proof.
  intros Date_parse parseFloat ok1 ok2 tradesJson form8kJson st st'.
  destruct (loadData_success Date_parse parseFloat ok1 ok2 tradesJson form8kJson st)
    as [Ht [Hf [Hs _]]].
  fold st' in Ht, Hf, Hs. rewrite Hs, Ht, Hf.
  split; [reflexivity|]. split; [reflexivity|].
  destruct (TradesDoc.stats tradesJson); reflexivity.
Qed.

(** C9, as the code has it. [loadData] never throws. When a fetch
    rejects or a body is not JSON (the status of a response is never
    looked at), it shows the "No data available" row: if the trades
    document failed, both datasets keep their previous values; if the
    trades document was obtained and the filings document failed,
    [tradesData] already holds the new trades and only [form8kData] keeps
    its previous value. When both documents were obtained both datasets
    are replaced, and the "No data available" row is shown all the same
    exactly when the charts had been drawn before, the redrawing being
    what fails then. The timer goes on: whatever the earlier ticks
    delivered, a tick that obtains both documents leaves their records in
    the datasets. *)
Theorem loadData_failure :
  forall (Date_parse : string -> option Z) (parseFloat : string -> option Q)
         (tradesFetch : Fetched TradesDoc.t) (form8kFetch : Fetched FilingsDoc.t)
         (st : App),
    let st' := loadData Date_parse parseFloat tradesFetch form8kFetch st in
    match fetched_json tradesFetch, fetched_json form8kFetch with
    | None, _ =>
        tradesData st' = tradesData st
        /\ form8kData st' = form8kData st
        /\ form4Body st' = NoDataAvailable
    | Some tradesJson, None =>
        tradesData st' = or_empty (TradesDoc.trades tradesJson)
        /\ form8kData st' = form8kData st
        /\ form4Body st' = NoDataAvailable
    | Some tradesJson, Some form8kJson =>
        tradesData st' = or_empty (TradesDoc.trades tradesJson)
        /\ form8kData st' = or_empty (FilingsDoc.filings form8kJson)
        /\ (form4Body st' = NoDataAvailable <-> charts st <> None)
    end
    /\ (forall ok ok' body,
          loadData Date_parse parseFloat (Response ok body) form8kFetch st
          = loadData Date_parse parseFloat (Response ok' body) form8kFetch st)
    /\ (forall ticks ok1 ok2 tradesJson form8kJson,
          let last := (Response ok1 (Some tradesJson),
                       Response ok2 (Some form8kJson)) in
          let st'' := run Date_parse parseFloat (ticks ++ [last]) st in
          tradesData st'' = or_empty (TradesDoc.trades tradesJson)
          /\ form8kData st'' = or_empty (FilingsDoc.filings form8kJson)).
Proof.
  intros Date_parse parseFloat tradesFetch form8kFetch st st'.
  split; [|split].
  - destruct tradesFetch as [|ok1 [tradesJson|]];
      [repeat split | | repeat split].
    destruct form8kFetch as [|ok2 [form8kJson|]];
      [repeat split | | repeat split].
    cbn [fetched_json].
    destruct (loadData_success Date_parse parseFloat ok1 ok2 tradesJson form8kJson st)
      as [Ht [Hf [_ [_ [_ [Hb _]]]]]].
    fold st' in Ht, Hf, Hb. split; [exact Ht|]. split; [exact Hf|].
    rewrite Hb, <- charts_drawn_iff.
    destruct (charts_drawn st); split; try reflexivity; try discriminate.
    intros H. destruct (form4_view_data _ H).
  - reflexivity.
  - intros ticks ok1 ok2 tradesJson form8kJson last st''.
    unfold st''. rewrite run_snoc. unfold last. cbn [fst snd].
    destruct (loadData_success Date_parse parseFloat ok1 ok2 tradesJson
                form8kJson (run Date_parse parseFloat ticks st))
      as [Ht [Hf _]].
    split; assumption.
Qed.

(** C10 against the code. When both documents are fetched and parsed
    but the trades document has no [trades] member, [tradesData] becomes
    the empty list, whatever it held, and a filings document without
    [filings] likewise empties [form8kData]; a rejected trades fetch, by
    contrast, leaves both datasets as they were. On the first load the
    Form 4 table then shows the ordinary "no trades match" row. But on
    every load after the charts have been drawn [renderCharts] throws,
    and the table shows the "No data available" row of the failure
    path, although nothing failed to be fetched or parsed. *)
Theorem loadData_missing_member :
  forall (Date_parse : string -> option Z) (parseFloat : string -> option Q)
         (ok1 ok2 : bool) (stats : option Stats.t) (lastUpdated : option string)
         (tradesJson : TradesDoc.t) (form8kJson : FilingsDoc.t)
         (form8kFetch : Fetched FilingsDoc.t) (st : App),
    let no_trades := TradesDoc.mk None stats lastUpdated in
    let no_filings := FilingsDoc.mk None in
    let st1 := loadData Date_parse parseFloat (Response ok1 (Some no_trades))
                 (Response ok2 (Some form8kJson)) st in
    let st2 := loadData Date_parse parseFloat (Response ok1 (Some tradesJson))
                 (Response ok2 (Some no_filings)) st in
    let st3 := loadData Date_parse parseFloat NetworkError form8kFetch st in
    (tradesData st1 = []
     /\ form4Body st1
        = if charts_drawn st then NoDataAvailable else NoTradesMatch)
    /\ (form8kData st2 = []
        /\ (form4Body st2 = NoDataAvailable <-> charts_drawn st = true))
    /\ (tradesData st3 = tradesData st /\ form8kData st3 = form8kData st
        /\ form4Body st3 = NoDataAvailable).
Proof.
  intros Date_parse parseFloat ok1 ok2 stats lastUpdated tradesJson form8kJson
    form8kFetch st no_trades no_filings st1 st2 st3.
  split; [|split; [|repeat split]].
  - destruct (loadData_success Date_parse parseFloat ok1 ok2 no_trades form8kJson st)
      as [Ht [_ [_ [_ [_ [Hb _]]]]]].
    fold st1 in Ht, Hb. split; [exact Ht|].
    rewrite Hb. destruct (charts_drawn st); reflexivity.
  - destruct (loadData_success Date_parse parseFloat ok1 ok2 tradesJson no_filings st)
      as [_ [Hf [_ [_ [_ [Hb _]]]]]].
    fold st2 in Hf, Hb. split; [exact Hf|].
    rewrite Hb. destruct (charts_drawn st); split;
      try reflexivity; try discriminate.
    intros H. destruct (form4_view_data _ H).
Qed.

(** ** The properties at concrete inputs *)

(** The scenario of the specification: with a minimum value of 100000
    only the AAPL trade remains. *)
Lemma applyFilters_filter_permutation_witness :
  let st := example_state "100000" "date" in
  let keep := keepTrade "all" EmptyString [] 100000 in
  map Trade.symbol (filteredTrades (applyFilters isoDate wholeFloat st)) = ["AAPL"]
  /\ Permutation (filteredTrades (applyFilters isoDate wholeFloat st))
       (filter keep example_trades).
Proof.
  split; [reflexivity|].
  exact (proj1 (proj2 (proj2
           (applyFilters_filter_permutation isoDate wholeFloat
              (example_state "100000" "date"))))).
Defined.

(** C1 against the code: a record without [totalValue] is listed under
    a minimum value of 100000, and [totalValue >= 100000] does not hold
    of it. *)
Lemma applyFilters_keeps_missing_value :
  let record := trade_without_value "BUY" "AAPL" 100 "2024-01-01" in
  let st := set_tradesData [record]
              (initial (controls_of "all" EmptyString "100000" "date")) in
  Trade.totalValue record = None
  /\ or_zero (wholeFloat (filterMinValue (controls st))) = 100000
  /\ filteredTrades (applyFilters isoDate wholeFloat st) = [record]
  /\ ~ filterPredicate_spec "all" EmptyString [] 100000 record.
Proof.
  split; [reflexivity|]. split; [reflexivity|]. split; [reflexivity|].
  intros [_ [_ [_ H]]]. exact H.
Qed.

(** MSFT and ZZZZ both have the value 50000 and stay in input order. *)
Lemma applyFilters_value_sort_stable_witness :
  let st := example_state EmptyString "value" in
  sortBy (controls st) = "value"
  /\ Forall valued (filteredTrades (applyFilters isoDate wholeFloat st))
  /\ map Trade.symbol (filteredTrades (applyFilters isoDate wholeFloat st))
     = ["AAPL"; "MSFT"; "ZZZZ"]
  /\ filter (has_totalValue 50000)
       (filteredTrades (applyFilters isoDate wholeFloat st))
     = filter (has_totalValue 50000)
         (filter (keepTrade "all" EmptyString [] 0) example_trades).
Proof.
  assert (H : Forall valued
                (filteredTrades
                   (applyFilters isoDate wholeFloat
                      (example_state EmptyString "value")))).
  { repeat constructor; discriminate. }
  split; [reflexivity|]. split; [exact H|]. split; [reflexivity|].
  exact (applyFilters_value_sort_stable isoDate wholeFloat
           (example_state EmptyString "value") 50000 eq_refl H).
Defined.

(** C8 against the code: NVDA and AMZN both have the value 500000, NVDA
    first; TSLA has no [totalValue], so every comparison with it gives
    [NaN]. Sorted by value, AMZN comes out before NVDA (and GOOGL, with
    the least value, before TSLA and NVDA). *)
Lemma applyFilters_value_sort_unstable :
  let st := set_tradesData example_ties
              (initial (controls_of "all" EmptyString EmptyString "value")) in
  let out := filteredTrades (applyFilters isoDate wholeFloat st) in
  map Trade.symbol example_ties
  = ["AAPL"; "MSFT"; "GOOGL"; "TSLA"; "NVDA"; "META"; "AMZN"]
  /\ map Trade.symbol out
     = ["AAPL"; "MSFT"; "META"; "AMZN"; "GOOGL"; "TSLA"; "NVDA"]
  /\ map Trade.symbol (filter (has_totalValue 500000) example_ties)
     = ["NVDA"; "AMZN"]
  /\ map Trade.symbol (filter (has_totalValue 500000) out)
     = ["AMZN"; "NVDA"].
Proof. repeat split. Qed.

Lemma displayForm8k_filter_sorted_witness :
  let st := example_state EmptyString "date" in
  Forall (filed_valid isoDate) (displayForm8k isoDate st)
  /\ map Filing.symbol (displayForm8k isoDate st) = ["GOOGL"; "ZZZZ"; "AAPL"]
  /\ StronglySorted (filing_order isoDate "newest") (displayForm8k isoDate st).
Proof.
  assert (H : Forall (filed_valid isoDate)
                (displayForm8k isoDate (example_state EmptyString "date"))).
  { repeat constructor; discriminate. }
  split; [exact H|]. split; [reflexivity|].
  exact (proj1 (proj2 (proj2
           (displayForm8k_filter_sorted isoDate
              (example_state EmptyString "date")))) H).
Defined.

(** C6 against the code: a filing whose date is ["Unknown"] makes every
    comparison with it give [NaN]; under ['newest'] these three filings
    stay where they are, the newest last, GOOGL of 2 January after AAPL
    of 1 January. *)
Example displayForm8k_unknown_date :
  let st := set_form8kData example_unknown_date
              (initial (controls_of "all" EmptyString EmptyString "date")) in
  form8kSortOrder st = "newest"
  /\ map (fun f => (Filing.symbol f, Filing.filedDate f)) (displayForm8k isoDate st)
     = [("AAPL", "2024-01-01"); ("MSFT", "Unknown"); ("GOOGL", "2024-01-02")]
  /\ ~ StronglySorted (filing_order isoDate "newest") (displayForm8k isoDate st).
Proof.
  split; [reflexivity|]. split; [reflexivity|].
  intros H. inversion H as [|f l _ Hall]; subst.
  inversion Hall as [|? ? _ Hrest]; subst.
  inversion Hrest as [|? ? Hlast _]; subst.
  vm_compute in Hlast. apply Hlast. reflexivity.
Qed.

Lemma valueBuckets_partition_witness :
  bucket_of (Some 50000) = From50K
  /\ in_range From50K 50000
  /\ map (valueBuckets example_trades) all_buckets = [0; 2; 1; 0; 0; 0]%nat.
Proof.
  split; [reflexivity|]. split; [|reflexivity].
  exact (proj1 (proj1 (valueBuckets_partition (example_state EmptyString "date"))
                  50000 From50K) eq_refl).
Defined.

(** C7 against the code: a trade without [totalValue] is counted in the
    bucket of 5000000 and more. *)
Lemma valueBuckets_missing_value :
  let record := trade_without_value "BUY" "AAPL" 100 "2024-01-01" in
  Trade.totalValue record = None
  /\ map (fun b => (bucket_label b, valueBuckets [record] b)) all_buckets
     = [ ("<$50K", 0); ("$50K-$100K", 0); ("$100K-$500K", 0);
         ("$500K-$1M", 0); ("$1M-$5M", 0); (">$5M", 1) ]%nat
  /\ (at_least 5000000 (Trade.totalValue record) -> False).
Proof. repeat split. intros H. exact H. Qed.

(** The three inputs the specification names. *)
Example get8KExplanation_examples :
  get8KExplanation (filing_of "AAPL" (ItemsArray []) "2024-01-05")
  = "Material company event requiring SEC disclosure"
  /\ get8KExplanation (filing_of "AAPL" (ItemsArray ["9.99"]) "2024-01-05")
     = "Material company event requiring SEC disclosure"
  /\ get8KExplanation (filing_of "AAPL" (ItemsString "2.02, 8.01") "2024-01-05")
     = "<div style=" ++ dq ++ "line-height: 1.8;" ++ dq ++ ">"
       ++ item_markup "2.02" "Earnings release or financial results"
       ++ "<br>"
       ++ item_markup "8.01" "Other material event (lawsuit, investigation, etc.)"
       ++ "</div>".
Proof. repeat split. Qed.

(** C2 against the code, at a filing of the examples: the only item is
    [constructor], which is no code of the table, and the explanation is
    not the fallback text. *)
Lemma get8KExplanation_inherited_name :
  let filing := filing_of "AAPL" (ItemsArray ["constructor"]) "2024-01-05" in
  explanation_of itemExplanations "constructor" = None
  /\ get8KExplanation filing
     = "<div style=" ++ dq ++ "line-height: 1.8;" ++ dq ++ ">"
       ++ "<span class=" ++ dq ++ "item-code" ++ dq ++ ">Item constructor</span>"
       ++ "<span class=" ++ dq ++ "item-description" ++ dq ++ ">"
       ++ "function Object() { [native code] }</span></div>"
  /\ get8KExplanation filing <> default_explanation.
Proof. split; [reflexivity|]. split; [reflexivity|]. discriminate. Qed.

(** C3 against the code: the trades sum to 300000 but the panel shows
    the 5 that the [stats] block carries. *)
Lemma reported_total_not_sum :
  let st' := loadData isoDate wholeFloat
               (Response true (Some example_trades_doc))
               (Response true (Some example_filings_doc))
               (initial (controls_of "all" EmptyString EmptyString "date")) in
  tradesData st' = example_trades
  /\ (totalValue_sum (tradesData st') == 300000)%Q
  /\ formatTotalValue (totalValue_sum (tradesData st')) = "$300.00K"
  /\ totalValue (statsPanel st') = Literal "$5.00"
  /\ totalValue (statsPanel st')
     <> Literal (formatTotalValue (totalValue_sum (tradesData st'))).
Proof.
  vm_compute. repeat split; try reflexivity; discriminate.
Qed.

(** C5 against the code: ZZZZ is not in [DEFAULT_WATCHLIST], no override
    is set, and its trade and its filing are both in the output. *)
Lemma default_watchlist_not_applied :
  let st := example_state EmptyString "date" in
  customWatchlistTickers st = []
  /\ JsArray.includes DEFAULT_WATCHLIST "ZZZZ" = false
  /\ map Trade.symbol (filteredTrades (applyFilters isoDate wholeFloat st))
     = ["ZZZZ"; "MSFT"; "AAPL"]
  /\ map Filing.symbol (displayForm8k isoDate st) = ["GOOGL"; "ZZZZ"; "AAPL"].
Proof. repeat split. Qed.

(** C9 against the code: the trades document arrives, the filings fetch
    rejects; [tradesData] is no longer what it was. A response that is
    not OK but carries JSON is loaded like any other. *)
Lemma loadData_partial_update :
  let st := example_state EmptyString "date" in
  let st' := loadData isoDate wholeFloat
               (Response true (Some later_trades_doc)) NetworkError st in
  let st'' := loadData isoDate wholeFloat
                (Response false (Some later_trades_doc))
                (Response false (Some example_filings_doc)) st in
  map Trade.symbol (tradesData st) = ["AAPL"; "MSFT"; "ZZZZ"]
  /\ map Trade.symbol (tradesData st') = ["TSLA"]
  /\ tradesData st' <> tradesData st
  /\ form8kData st' = form8kData st
  /\ form4Body st' = NoDataAvailable
  /\ map Trade.symbol (tradesData st'') = ["TSLA"]
  /\ form4Body st'' <> NoDataAvailable.
Proof.
  vm_compute. repeat split; try reflexivity; discriminate.
Qed.

(** C10 against the code: the page has loaded once and the charts are
    drawn; the next tick obtains a trades document without [trades] and
    the filings document. [tradesData] is emptied, and the Form 4 table
    shows the "No data available" row. The same row appears when the
    tick obtains the very documents of the first load. *)
Lemma loadData_reload_no_data :
  let loaded := loadData isoDate wholeFloat
                  (Response true (Some example_trades_doc))
                  (Response true (Some example_filings_doc))
                  (initial (controls_of "all" EmptyString EmptyString "date")) in
  let st1 := loadData isoDate wholeFloat
               (Response true (Some (TradesDoc.mk None None None)))
               (Response true (Some example_filings_doc)) loaded in
  let st2 := loadData isoDate wholeFloat
               (Response true (Some example_trades_doc))
               (Response true (Some example_filings_doc)) loaded in
  form4Body loaded = TradeRows (filteredTrades loaded)
  /\ charts_drawn loaded = true
  /\ tradesData st1 = []
  /\ form4Body st1 = NoDataAvailable
  /\ map Trade.symbol (filteredTrades st2) = ["ZZZZ"; "MSFT"; "AAPL"]
  /\ form4Body st2 = NoDataAvailable.
Proof. vm_compute. repeat split. Qed.

(** The quotient is rounded before it is printed: 1005 / 1000 is the
    double just below 1.005, and 2675 / 1000 the double just below 2.675. *)
Example formatTotalValue_rounding :
  formatTotalValue 1005 = "$1.00K"
  /\ formatTotalValue 2675 = "$2.67K"
  /\ formatTotalValue 1234567 = "$1.23M"
  /\ formatTotalValue 8765432199 = "$8.77B"
  /\ formatTotalValue 999 = "$999.00".
Proof. vm_compute. repeat split. Qed.

(** A failed tick followed by a good one: the second run loads the data. *)
Example run_retries :
  let st := run isoDate wholeFloat
              [ (NetworkError, NetworkError);
                (Response true (Some example_trades_doc),
                 Response true (Some example_filings_doc)) ]
              (initial (controls_of "all" EmptyString EmptyString "date")) in
  tradesData st = example_trades
  /\ form8kData st = example_filings
  /\ map Trade.symbol (filteredTrades st) = ["ZZZZ"; "MSFT"; "AAPL"].
Proof. repeat split. Qed.

(** * Further properties of the page *)

(** ** The views after each operation *)

(** X1. Running [applyFilters] a second time changes nothing: the whole
    state, tables included, is already what the filters call for. *)
Theorem applyFilters_idempotent :
  forall (Date_parse : string -> option Z) (parseFloat : string -> option Q)
         (st : App),
    applyFilters Date_parse parseFloat (applyFilters Date_parse parseFloat st)
    = applyFilters Date_parse parseFloat st.
Proof.
  intros Date_parse parseFloat st. rewrite !applyFilters_unfold. reflexivity.
Qed.

(** X2. After [applyFilters] the Form 4 table shows the "no trades
    match" row exactly when no record of [tradesData] satisfies the four
    conditions as the filter tests them (a record without [totalValue]
    is not below any minimum); otherwise it shows the rows of
    [filteredTrades]. It never keeps the "No data available" row. *)
Theorem form4Body_after_applyFilters :
  forall (Date_parse : string -> option Z) (parseFloat : string -> option Q)
         (st : App),
    let st' := applyFilters Date_parse parseFloat st in
    let passes :=
      filterPredicate (filterType (controls st)) (filterTicker (controls st))
        (customWatchlistTickers st)
        (or_zero (parseFloat (filterMinValue (controls st)))) in
    (form4Body st' = NoTradesMatch
     <-> forall r, In r (tradesData st) -> ~ passes r)
    /\ ((exists r, In r (tradesData st) /\ passes r) ->
        form4Body st' = TradeRows (filteredTrades st')
        /\ filteredTrades st' <> [])
    /\ form4Body st' <> NoDataAvailable.
Proof.
  intros Date_parse parseFloat st st' passes.
  assert (Hbody : form4Body st' = form4_view (filteredTrades st')).
  { unfold st'. rewrite applyFilters_unfold. reflexivity. }
  assert (Hempty : filteredTrades st' = []
                   <-> forall r, In r (tradesData st) -> ~ passes r).
  { unfold st'. rewrite applyFilters_filteredTrades, sort_nil_iff, filter_nil_iff.
    split; intros H r Hr.
    - intros Hp. apply keepTrade_iff in Hp. rewrite (H r Hr) in Hp. discriminate.
    - destruct (keepTrade _ _ _ _ r) eqn:E; [|reflexivity].
      apply keepTrade_iff in E. destruct (H r Hr E). }
  split; [|split].
  - rewrite Hbody, form4_view_empty. exact Hempty.
  - intros [r [Hr Hp]].
    assert (Hne : filteredTrades st' <> []).
    { intros E. exact (proj1 Hempty E r Hr Hp). }
    split; [|exact Hne]. rewrite Hbody. unfold form4_view.
    destruct (filteredTrades st'); [congruence | reflexivity].
  - rewrite Hbody. unfold form4_view.
    destruct (List.length _ =? 0)%nat; discriminate.
Qed.

(** X3. [renderForm8kTable] shows the "no filings available" row exactly
    when no filing passes the watchlist rule, also when filings exist
    that the watchlist excludes; otherwise it shows one row per filing
    kept, in display order, each with the explanation of that filing. *)
Theorem form8kBody_after_render :
  forall (Date_parse : string -> option Z) (st : App),
    let st' := renderForm8kTable Date_parse st in
    (form8kBody st' = NoFilingsAvailable
     <-> forall f, In f (form8kData st) ->
                   ~ watchlistRule (customWatchlistTickers st) (Filing.symbol f))
    /\ (form8kBody st' = NoFilingsAvailable
        \/ exists rows,
             form8kBody st' = FilingRows rows
             /\ map fst rows = displayForm8k Date_parse st
             /\ Forall (fun row => snd row = get8KExplanation (fst row)) rows).
Proof.
  intros Date_parse st st'.
  assert (Hbody : form8kBody st' = form8k_view (displayForm8k Date_parse st)).
  { unfold st'. rewrite renderForm8kTable_unfold. reflexivity. }
  split.
  - rewrite Hbody, form8k_view_empty, displayForm8k_unfold, sort_nil_iff,
      filter_nil_iff.
    split; intros H f Hf.
    + intros Hw. apply watchlist_passes_iff in Hw. rewrite (H f Hf) in Hw.
      discriminate.
    + destruct (watchlist_passes _ _) eqn:E; [|reflexivity].
      apply watchlist_passes_iff in E. destruct (H f Hf E).
  - rewrite Hbody. unfold form8k_view.
    destruct (List.length _ =? 0)%nat; [left; reflexivity|].
    right. eexists. split; [reflexivity|]. split.
    + rewrite map_map. simpl. apply map_id.
    + rewrite Forall_forall. intros row Hrow. apply in_map_iff in Hrow.
      destruct Hrow as [f [<- _]]. reflexivity.
Qed.

(** X4. After [applyFilters], [applyCustomWatchlist],
    [clearCustomWatchlist] and [resetFilters] the state is consistent:
    [filteredTrades] is the selection the current data, criteria and
    watchlist call for, the Form 4 table shows it and the Form 8-K table
    shows the current filings. [applyForm8KSort] keeps a consistent state
    consistent. So does a [loadData] that obtained both documents when
    it is the one that draws the charts; on a later load
    [filteredTrades] and the Form 8-K table are current but the Form 4
    table shows the "No data available" row. *)
Theorem views_current_kept :
  forall (Date_parse : string -> option Z) (parseFloat : string -> option Q)
         (st : App),
    views_current Date_parse parseFloat (applyFilters Date_parse parseFloat st)
    /\ views_current Date_parse parseFloat
         (applyCustomWatchlist Date_parse parseFloat st)
    /\ views_current Date_parse parseFloat
         (clearCustomWatchlist Date_parse parseFloat st)
    /\ views_current Date_parse parseFloat (resetFilters Date_parse parseFloat st)
    /\ (views_current Date_parse parseFloat st ->
        views_current Date_parse parseFloat (applyForm8KSort Date_parse st))
    /\ (forall ok1 ok2 tradesJson form8kJson,
          let st' := loadData Date_parse parseFloat (Response ok1 (Some tradesJson))
                       (Response ok2 (Some form8kJson)) st in
          filteredTrades st' = selectedTrades Date_parse parseFloat st'
          /\ form8kBody st' = form8k_view (displayForm8k Date_parse st')
          /\ form4Body st'
             = if charts_drawn st then NoDataAvailable
               else form4_view (filteredTrades st'))
    /\ (forall ok1 ok2 tradesJson form8kJson,
          charts st = None ->
          views_current Date_parse parseFloat
            (loadData Date_parse parseFloat (Response ok1 (Some tradesJson))
               (Response ok2 (Some form8kJson)) st)).
Proof.
  intros Date_parse parseFloat st.
  split; [apply views_current_applyFilters|].
  split; [apply views_current_applyFilters|].
  split; [apply views_current_applyFilters|].
  split; [apply views_current_applyFilters|].
  split; [|split].
  - intros [Hf [H4 _]]. unfold applyForm8KSort.
    rewrite renderForm8kTable_unfold. repeat split; assumption.
  - intros ok1 ok2 tradesJson form8kJson. cbv zeta.
    rewrite loadData_success_unfold. cbv zeta.
    rewrite before_charts_unfold. cbv zeta.
    unfold renderCharts, charts_drawn. cbn [charts].
    destruct (charts st); destruct (TradesDoc.stats tradesJson); repeat split.
  - intros ok1 ok2 tradesJson form8kJson Hnone.
    rewrite loadData_success_unfold. cbv zeta.
    rewrite before_charts_unfold. cbv zeta.
    unfold renderCharts. cbn [charts]. rewrite Hnone.
    destruct (TradesDoc.stats tradesJson); repeat split.
Qed.

(** X5. Loading again what was just loaded: when a fetch failed, or
    when the charts had been drawn before the first of the two runs, the
    second run changes nothing. When the first run obtained both
    documents and drew the charts, the second run changes one thing: the
    Form 4 table, which showed the trades, now shows the "No data
    available" row. *)
Theorem loadData_idempotent :
  forall (Date_parse : string -> option Z) (parseFloat : string -> option Q)
         (tradesFetch : Fetched TradesDoc.t) (form8kFetch : Fetched FilingsDoc.t)
         (st : App),
    let once := loadData Date_parse parseFloat tradesFetch form8kFetch st in
    loadData Date_parse parseFloat tradesFetch form8kFetch once
    = if both_obtained tradesFetch form8kFetch && negb (charts_drawn st)
      then set_form4Body NoDataAvailable once
      else once.
Proof.
  intros Date_parse parseFloat tradesFetch form8kFetch st once. unfold once.
  destruct tradesFetch as [|ok1 [tradesJson|]]; [reflexivity | | reflexivity].
  destruct form8kFetch as [|ok2 [form8kJson|]]; [reflexivity | | reflexivity].
  unfold both_obtained. cbn [fetched_json andb].
  rewrite !loadData_success_unfold. cbv zeta.
  rewrite !before_charts_unfold. cbv zeta.
  unfold renderCharts, charts_drawn. cbn [charts].
  destruct (charts st); destruct (TradesDoc.stats tradesJson); reflexivity.
Qed.

(** X6. A load that obtains both documents replaces the data wholesale:
    the state it leaves depends on the previous state only through the
    user's settings (the controls, the watchlist, the sort order), the
    summary panel when the trades document has no [stats], and, once the
    charts are drawn, the charts and the "last updated" line, which it
    then leaves alone. Nothing of the previous datasets or tables
    remains. *)
Theorem loadData_replaces_wholesale :
  forall (Date_parse : string -> option Z) (parseFloat : string -> option Q)
         (ok1 ok2 : bool) (tradesJson : TradesDoc.t) (form8kJson : FilingsDoc.t)
         (st1 st2 : App),
    same_settings st1 st2 ->
    (TradesDoc.stats tradesJson = None -> statsPanel st1 = statsPanel st2) ->
    charts st1 = charts st2 ->
    (charts st1 <> None -> lastUpdate st1 = lastUpdate st2) ->
    loadData Date_parse parseFloat (Response ok1 (Some tradesJson))
      (Response ok2 (Some form8kJson)) st1
    = loadData Date_parse parseFloat (Response ok1 (Some tradesJson))
        (Response ok2 (Some form8kJson)) st2.
Proof.
  intros Date_parse parseFloat ok1 ok2 tradesJson form8kJson st1 st2
    [Hc [Hw Ho]] Hp Hcharts Hline.
  rewrite !loadData_success_unfold. cbv zeta.
  rewrite !before_charts_unfold. cbv zeta.
  unfold renderCharts. cbn [charts].
  destruct st1, st2. simpl in Hc, Hw, Ho, Hp, Hcharts, Hline. subst.
  destruct charts1 as [drawn|].
  - rewrite Hline by discriminate.
    destruct (TradesDoc.stats tradesJson); [reflexivity|].
    simpl. rewrite (Hp eq_refl). reflexivity.
  - destruct (TradesDoc.stats tradesJson); [reflexivity|].
    simpl. rewrite (Hp eq_refl). reflexivity.
Qed.

(** X7. Clearing the watchlist undoes any watchlist that was applied:
    [clearCustomWatchlist] after [applyCustomWatchlist] leaves the state
    that [clearCustomWatchlist] alone leaves. *)
Theorem clearCustomWatchlist_after_apply :
  forall (Date_parse : string -> option Z) (parseFloat : string -> option Q)
         (st : App),
    clearCustomWatchlist Date_parse parseFloat
      (applyCustomWatchlist Date_parse parseFloat st)
    = clearCustomWatchlist Date_parse parseFloat st.
Proof.
  intros Date_parse parseFloat st.
  unfold clearCustomWatchlist, applyCustomWatchlist.
  rewrite !applyFilters_unfold. reflexivity.
Qed.

(** X8. Refreshing never touches the user's settings: after any sequence
    of timer ticks, whatever the fetches delivered, the filter controls,
    the custom watchlist and the Form 8-K sort order are what they were. *)
Theorem run_keeps_settings :
  forall (Date_parse : string -> option Z) (parseFloat : string -> option Q)
         (ticks : list (Fetched TradesDoc.t * Fetched FilingsDoc.t)) (st : App),
    controls (run Date_parse parseFloat ticks st) = controls st
    /\ customWatchlistTickers (run Date_parse parseFloat ticks st)
       = customWatchlistTickers st
    /\ form8kSortOrder (run Date_parse parseFloat ticks st) = form8kSortOrder st.
Proof.
  intros Date_parse parseFloat ticks.
  induction ticks as [|tick ticks IH]; intros st; [repeat split|].
  rewrite run_cons.
  destruct (IH (loadData Date_parse parseFloat (fst tick) (snd tick) st))
    as [Hc [Hw Ho]].
  destruct (loadData_settings Date_parse parseFloat (fst tick) (snd tick) st)
    as [Hc' [Hw' Ho']].
  repeat split; congruence.
Qed.

(** X9. After any sequence of refreshes [tradesData] holds the trades of
    the last run whose trades document was obtained, and [form8kData] the
    filings of the last run in which both documents were obtained; with no
    such run they hold what they held before. *)
Theorem run_latest_wins :
  forall (Date_parse : string -> option Z) (parseFloat : string -> option Q)
         (ticks : list (Fetched TradesDoc.t * Fetched FilingsDoc.t)) (st : App),
    tradesData (run Date_parse parseFloat ticks st)
    = latest_trades ticks (tradesData st)
    /\ form8kData (run Date_parse parseFloat ticks st)
       = latest_filings ticks (form8kData st).
Proof.
  intros Date_parse parseFloat ticks.
  induction ticks as [|tick ticks IH]; intros st; [split; reflexivity|].
  rewrite run_cons.
  destruct (IH (loadData Date_parse parseFloat (fst tick) (snd tick) st))
    as [Ht Hf].
  destruct (loadData_datasets Date_parse parseFloat (fst tick) (snd tick) st)
    as [Ht' Hf'].
  rewrite Ht, Hf, Ht', Hf'. split; reflexivity.
Qed.

(** X10. [resetFilters] puts the four filter controls back to every
    type, no ticker, a minimum value of 100000 and the date order, but
    leaves the custom watchlist in force: the trades then listed are
    those the watchlist lets through whose [totalValue] is not below
    100000, a trade without [totalValue] among them. *)
Theorem resetFilters_keeps_watchlist :
  forall (Date_parse : string -> option Z) (parseFloat : string -> option Q)
         (st : App),
    parseFloat "100000" = Some 100000 ->
    let st' := resetFilters Date_parse parseFloat st in
    customWatchlistTickers st' = customWatchlistTickers st
    /\ controls st'
       = mkControls "all" EmptyString "100000" "date"
           (customWatchlist (controls st)) (sort8K (controls st))
    /\ Permutation (filteredTrades st')
         (filter
            (fun t =>
               watchlist_passes (customWatchlistTickers st) (Trade.symbol t)
               && negb (lt_number (Trade.totalValue t) 100000))
            (tradesData st)).
Proof.
  intros Date_parse parseFloat st Hparse st'. unfold st', resetFilters.
  rewrite applyFilters_unfold. cbn [customWatchlistTickers controls filteredTrades].
  split; [reflexivity|]. split; [reflexivity|].
  unfold selectedTrades. rewrite JsArrayFacts.sort_Permutation.
  cbn [set_controls controls tradesData customWatchlistTickers filterType
       filterTicker filterMinValue sortBy].
  rewrite Hparse.
  erewrite filter_ext; [reflexivity|].
  intros t. rewrite keepTrade_andb. unfold keepTrade_unrestricted.
  simpl. apply andb_comm.
Qed.

(** X11. [applyForm8KSort] takes the order from the [sort8K] control and
    redraws the Form 8-K table; it shows the same filings as before in
    the new order and leaves the trades, their table and the watchlist
    alone. *)
Theorem applyForm8KSort_reorders :
  forall (Date_parse : string -> option Z) (st : App),
    let st' := applyForm8KSort Date_parse st in
    form8kSortOrder st' = sort8K (controls st)
    /\ Permutation (displayForm8k Date_parse st') (displayForm8k Date_parse st)
    /\ form8kBody st' = form8k_view (displayForm8k Date_parse st')
    /\ tradesData st' = tradesData st
    /\ filteredTrades st' = filteredTrades st
    /\ form4Body st' = form4Body st
    /\ customWatchlistTickers st' = customWatchlistTickers st.
Proof.
  intros Date_parse st st'. unfold st', applyForm8KSort.
  rewrite renderForm8kTable_unfold.
  split; [reflexivity|]. split; [|repeat split].
  rewrite !displayForm8k_unfold.
  etransitivity; [apply JsArrayFacts.sort_Permutation|].
  symmetry. apply JsArrayFacts.sort_Permutation.
Qed.

(** ** Order of the Form 4 table *)

(** X12. Under the sort key [shares] the trades listed are in
    descending order of [shares]; under the key [value] they are in
    descending order of [totalValue] when each of them carries one. *)
Theorem applyFilters_sorted_numeric :
  forall (Date_parse : string -> option Z) (parseFloat : string -> option Q)
         (st : App),
    let out := filteredTrades (applyFilters Date_parse parseFloat st) in
    (sortBy (controls st) = "value" -> Forall valued out ->
     StronglySorted value_descending out)
    /\ (sortBy (controls st) = "shares" -> StronglySorted shares_descending out).
Proof.
  intros Date_parse parseFloat st out. unfold out.
  rewrite applyFilters_filteredTrades.
  split; intros Hkey; rewrite Hkey.
  - intros Hvalued.
    apply (JsArrayFacts.sort_StronglySorted _ value_descending valued).
    + apply compareTrades_value_before.
    + apply compareTrades_value_after.
    + apply value_descending_trans.
    + revert Hvalued. apply Permutation_Forall, JsArrayFacts.sort_Permutation.
  - apply (JsArrayFacts.sort_StronglySorted _ shares_descending (fun _ => True)).
    + intros x y _ _. apply compareTrades_shares_before.
    + intros x y _ _. apply compareTrades_shares_after.
    + intros x y z _ _ _. unfold shares_descending. intros; lra.
    + rewrite Forall_forall. intros; exact I.
Qed.

(** X13. Under every other sort key (['date'] in particular) the trades
    listed are ordered by [filingDate] parsed as a date, newest first,
    whenever the filing dates of the trades listed parse. *)
Theorem applyFilters_sorted_by_date :
  forall (Date_parse : string -> option Z) (parseFloat : string -> option Q)
         (st : App),
    let out := filteredTrades (applyFilters Date_parse parseFloat st) in
    sortBy (controls st) <> "value" ->
    sortBy (controls st) <> "shares" ->
    Forall (filingDate_valid Date_parse) out ->
    StronglySorted (filing_newest_first Date_parse) out.
Proof.
  intros Date_parse parseFloat st out Hv Hs. unfold out.
  rewrite applyFilters_filteredTrades. intros Hvalid.
  apply String.eqb_neq in Hv, Hs.
  assert (Hcmp : forall a b,
             compareTrades Date_parse (sortBy (controls st)) a b
             = date_diff Date_parse (Trade.filingDate b) (Trade.filingDate a)).
  { intros a b. unfold compareTrades. rewrite Hv, Hs. reflexivity. }
  apply (JsArrayFacts.sort_StronglySorted _ _ (filingDate_valid Date_parse)).
  - intros x y _ _. rewrite Hcmp, negative_date_diff.
    unfold filing_newest_first.
    destruct (Date_parse (Trade.filingDate x)), (Date_parse (Trade.filingDate y));
      try discriminate. intros H. apply Z.ltb_lt in H. split; lia.
  - intros x y _ _. rewrite Hcmp, negative_date_diff.
    unfold filing_newest_first.
    destruct (Date_parse (Trade.filingDate x)), (Date_parse (Trade.filingDate y));
      try exact (fun _ => I). intros H. apply Z.ltb_ge in H. exact H.
  - intros x y z _ Hy _. unfold filingDate_valid, filing_newest_first in *.
    destruct (Date_parse (Trade.filingDate x)), (Date_parse (Trade.filingDate y)),
      (Date_parse (Trade.filingDate z)); intros; try exact I; try congruence; lia.
  - revert Hvalid. apply Permutation_Forall, JsArrayFacts.sort_Permutation.
Qed.

(** ** The watchlist as the page holds it *)

Module WatchlistFacts.
Import JsString.

Lemma upper_ascii_idem (c : ascii) : upper_ascii (upper_ascii c) = upper_ascii c.
Proof. destruct c as [[] [] [] [] [] [] [] []]; reflexivity. Qed.

Lemma is_space_upper (c : ascii) : is_space (upper_ascii c) = is_space c.
Proof. destruct c as [[] [] [] [] [] [] [] []]; reflexivity. Qed.

Lemma is_comma_upper (c : ascii) : is_comma (upper_ascii c) = is_comma c.
Proof. destruct c as [[] [] [] [] [] [] [] []]; reflexivity. Qed.

Lemma toUpperCase_idem (s : string) :
  toUpperCase (toUpperCase s) = toUpperCase s.
Proof.
  induction s as [|c s IH]; simpl; [reflexivity|].
  rewrite upper_ascii_idem, IH. reflexivity.
Qed.

Lemma trimStart_idem (s : string) : trimStart (trimStart s) = trimStart s.
Proof.
  induction s as [|c s IH]; simpl; [reflexivity|].
  destruct (is_space c) eqn:Hc; [exact IH|]. simpl. rewrite Hc. reflexivity.
Qed.

Lemma trimEnd_idem (s : string) : trimEnd (trimEnd s) = trimEnd s.
Proof.
  induction s as [|c s IH]; [reflexivity|].
  rewrite JsStringFacts.trimEnd_cons.
  destruct (truthy (trimEnd s)) eqn:Ht.
  - rewrite JsStringFacts.trimEnd_cons, IH, Ht. reflexivity.
  - destruct (is_space c) eqn:Hc; [reflexivity|].
    rewrite JsStringFacts.trimEnd_cons. simpl. rewrite Hc. reflexivity.
Qed.

Lemma trim_idem (s : string) : trim (trim s) = trim s.
Proof.
  unfold trim.
  rewrite (JsStringFacts.trim_commute (trimEnd (trimStart s))).
  rewrite trimEnd_idem.
  rewrite <- (JsStringFacts.trim_commute (trimStart s)).
  rewrite trimStart_idem. reflexivity.
Qed.

Lemma trimStart_toUpperCase (s : string) :
  trimStart (toUpperCase s) = toUpperCase (trimStart s).
Proof.
  induction s as [|c s IH]; simpl; [reflexivity|].
  rewrite is_space_upper. destruct (is_space c); [exact IH | reflexivity].
Qed.

Lemma trimEnd_toUpperCase (s : string) :
  trimEnd (toUpperCase s) = toUpperCase (trimEnd s).
Proof.
  induction s as [|c s IH]; [reflexivity|].
  cbn [toUpperCase]. rewrite !JsStringFacts.trimEnd_cons, IH.
  rewrite JsStringFacts.truthy_toUpperCase, is_space_upper.
  destruct (truthy (trimEnd s)); [reflexivity|].
  destruct (is_space c); reflexivity.
Qed.

Lemma trim_toUpperCase (s : string) : trim (toUpperCase s) = toUpperCase (trim s).
Proof. unfold trim. rewrite trimStart_toUpperCase, trimEnd_toUpperCase. reflexivity. Qed.

Lemma has_comma_toUpperCase (s : string) :
  has_comma (toUpperCase s) = has_comma s.
Proof.
  induction s as [|c s IH]; simpl; [reflexivity|].
  rewrite is_comma_upper, IH. reflexivity.
Qed.

Lemma has_comma_trimStart (s : string) :
  has_comma s = false -> has_comma (trimStart s) = false.
Proof.
  induction s as [|c s IH]; simpl; [reflexivity|].
  intros H. apply orb_false_iff in H. destruct H as [Hc Hs].
  destruct (is_space c); [apply IH; exact Hs|]. simpl. rewrite Hc. exact Hs.
Qed.

Lemma has_comma_trimEnd (s : string) :
  has_comma s = false -> has_comma (trimEnd s) = false.
Proof.
  induction s as [|c s IH]; [reflexivity|].
  cbn [has_comma]. intros H. apply orb_false_iff in H. destruct H as [Hc Hs].
  rewrite JsStringFacts.trimEnd_cons.
  destruct (truthy (trimEnd s)).
  - cbn [has_comma]. rewrite Hc. apply IH. exact Hs.
  - destruct (is_space c); [reflexivity|]. simpl. rewrite Hc. reflexivity.
Qed.

Lemma has_comma_trim (s : string) : has_comma s = false -> has_comma (trim s) = false.
Proof. intros H. unfold trim. apply has_comma_trimEnd, has_comma_trimStart, H. Qed.

Lemma split_comma_pieces (s : string) :
  Forall (fun t => has_comma t = false) (split_comma s).
Proof.
  induction s as [|c s IH]; simpl.
  - repeat constructor.
  - destruct (is_comma c) eqn:Hc.
    + constructor; [reflexivity | exact IH].
    + destruct (split_comma s) as [|t ts]; [repeat constructor; simpl; rewrite Hc; reflexivity|].
      inversion IH; subst. constructor; [|assumption]. simpl. rewrite Hc. assumption.
Qed.

Lemma split_comma_whole (a : string) :
  has_comma a = false -> split_comma a = [a].
Proof.
  induction a as [|c a IH]; simpl; [reflexivity|].
  intros H. apply orb_false_iff in H. destruct H as [Hc Ha].
  rewrite Hc, (IH Ha). reflexivity.
Qed.

Lemma split_comma_app (a b : string) :
  has_comma a = false ->
  split_comma (a ++ "," ++ b) = a :: split_comma b.
Proof.
  induction a as [|c a IH]; simpl; [reflexivity|].
  intros H. apply orb_false_iff in H. destruct H as [Hc Ha].
  rewrite Hc. simpl in IH. rewrite (IH Ha). reflexivity.
Qed.

Lemma split_comma_join (l : list string) :
  l <> [] -> Forall (fun t => has_comma t = false) l ->
  split_comma (join "," l) = l.
Proof.
  induction l as [|a l IH]; [congruence|]. intros _ H.
  inversion H as [|? ? Ha Hl]; subst.
  destruct l as [|b l].
  - simpl. apply split_comma_whole. exact Ha.
  - change (join "," (a :: b :: l)) with (a ++ "," ++ join "," (b :: l)).
    rewrite (split_comma_app _ _ Ha). rewrite IH; [reflexivity | discriminate | exact Hl].
Qed.

Lemma parseCustomWatchlist_tokens (value : string) :
  parseCustomWatchlist value = tokens (split_comma value).
Proof.
  rewrite <- (JsStringFacts.tokens_trim value). unfold parseCustomWatchlist.
  destruct (truthy (trim value)) eqn:E.
  - unfold tokens. rewrite map_map. reflexivity.
  - apply JsStringFacts.truthy_false in E. rewrite E. reflexivity.
Qed.

Lemma tokens_normal (l : list string) :
  Forall (fun t => has_comma t = false) l -> Forall ticker_normal (tokens l).
Proof.
  intros Hl. unfold tokens. rewrite Forall_forall in *. intros x Hx.
  apply filter_In in Hx. destruct Hx as [Hx Hne].
  rewrite map_map in Hx. apply in_map_iff in Hx. destruct Hx as [t [<- Ht]].
  repeat split.
  - intros E. rewrite E in Hne. discriminate.
  - rewrite trim_toUpperCase, trim_idem. reflexivity.
  - apply toUpperCase_idem.
  - rewrite has_comma_toUpperCase. apply has_comma_trim, Hl, Ht.
Qed.

Lemma tokens_of_normal (l : list string) :
  Forall ticker_normal l -> tokens l = l.
Proof.
  unfold tokens. induction l as [|t l IH]; intros H; [reflexivity|].
  inversion H as [|? ? [Hne [Htrim [Hup _]]] Hl]; subst.
  cbn [map filter]. rewrite Htrim, Hup.
  destruct t; [congruence|]. cbn [truthy]. rewrite (IH Hl). reflexivity.
Qed.

End WatchlistFacts.

(** X14. Every ticker of the watchlist that [applyCustomWatchlist]
    computes is in normal form: not empty, without surrounding white
    space, unchanged by uppercasing, and free of commas. *)
Theorem parseCustomWatchlist_normal :
  forall value : string, Forall ticker_normal (parseCustomWatchlist value).
Proof.
  intros value. rewrite WatchlistFacts.parseCustomWatchlist_tokens.
  apply WatchlistFacts.tokens_normal, WatchlistFacts.split_comma_pieces.
Qed.

(** X15. Parsing is stable under re-entry: joining the computed
    watchlist with commas and parsing the text again gives the same
    watchlist. *)
Theorem parseCustomWatchlist_reparse :
  forall value : string,
    parseCustomWatchlist (JsString.join "," (parseCustomWatchlist value))
    = parseCustomWatchlist value.
Proof.
  intros value.
  assert (Hn : Forall ticker_normal (parseCustomWatchlist value)).
  { rewrite WatchlistFacts.parseCustomWatchlist_tokens.
    apply WatchlistFacts.tokens_normal, WatchlistFacts.split_comma_pieces. }
  remember (parseCustomWatchlist value) as l eqn:El. clear El.
  rewrite WatchlistFacts.parseCustomWatchlist_tokens.
  destruct l as [|a l']; [reflexivity|].
  rewrite WatchlistFacts.split_comma_join.
  - apply WatchlistFacts.tokens_of_normal. exact Hn.
  - discriminate.
  - revert Hn. apply Forall_impl. intros t [_ [_ [_ H]]]. exact H.
Qed.

(** X16. While a watchlist computed by [applyCustomWatchlist] is in
    force, every trade listed and every filing shown has a symbol that is
    a member of it, hence a symbol in normal form: a record whose symbol
    is written in lower case is not shown, even if the user typed that
    symbol in lower case. *)
Theorem applyCustomWatchlist_symbols :
  forall (Date_parse : string -> option Z) (parseFloat : string -> option Q)
         (st : App),
    let st' := applyCustomWatchlist Date_parse parseFloat st in
    customWatchlistTickers st' = parseCustomWatchlist (customWatchlist (controls st))
    /\ (customWatchlistTickers st' <> [] ->
        Forall (fun t => In (Trade.symbol t) (customWatchlistTickers st')
                         /\ ticker_normal (Trade.symbol t))
          (filteredTrades st')
        /\ Forall (fun f => In (Filing.symbol f) (customWatchlistTickers st')
                            /\ ticker_normal (Filing.symbol f))
             (displayForm8k Date_parse st')).
Proof.
  intros Date_parse parseFloat st st'.
  assert (Hw : customWatchlistTickers st'
               = parseCustomWatchlist (customWatchlist (controls st))).
  { unfold st', applyCustomWatchlist. rewrite applyFilters_unfold. reflexivity. }
  split; [exact Hw|]. intros Hne.
  assert (Hnormal : forall sym,
             watchlist_passes (customWatchlistTickers st') sym = true ->
             In sym (customWatchlistTickers st') /\ ticker_normal sym).
  { intros sym H. apply watchlist_passes_iff in H. destruct H as [H|H]; [congruence|].
    split; [exact H|].
    pose proof (WatchlistFacts.tokens_normal
                  (JsString.split_comma (customWatchlist (controls st)))
                  (WatchlistFacts.split_comma_pieces _)) as Hn.
    rewrite <- WatchlistFacts.parseCustomWatchlist_tokens, <- Hw in Hn.
    rewrite Forall_forall in Hn. auto. }
  split.
  - assert (E : filteredTrades st'
                = selectedTrades Date_parse parseFloat
                    (set_customWatchlistTickers (customWatchlistTickers st') st)).
    { unfold st' at 1, applyCustomWatchlist. rewrite applyFilters_unfold, Hw.
      reflexivity. }
    rewrite E. unfold selectedTrades.
    apply (Permutation_Forall (Permutation_sym (JsArrayFacts.sort_Permutation _ _))).
    rewrite Forall_forall. intros t Ht. apply filter_In in Ht.
    destruct Ht as [_ Ht]. rewrite keepTrade_andb in Ht.
    apply andb_true_iff in Ht. apply Hnormal. exact (proj2 Ht).
  - rewrite displayForm8k_unfold.
    apply (Permutation_Forall (Permutation_sym (JsArrayFacts.sort_Permutation _ _))).
    rewrite Forall_forall. intros f Hf. apply filter_In in Hf.
    apply Hnormal. exact (proj2 Hf).
Qed.

(** ** Explanations of a filing *)

Lemma line_of_trim (item : string) :
  line_of (JsString.trim item) = line_of item.
Proof. unfold line_of. rewrite WatchlistFacts.trim_idem. reflexivity. Qed.

Lemma flat_map_line_trim (items : list string) :
  flat_map line_of (map JsString.trim items) = flat_map line_of items.
Proof.
  induction items as [|item items IH]; [reflexivity|].
  cbn [map flat_map]. rewrite line_of_trim, IH. reflexivity.
Qed.

(** An item that is no inherited name contributes the line of the
    table, if any. *)
Lemma line_of_table (item : string) :
  inherited_name (JsString.trim item) = false ->
  line_of item = description_of item.
Proof.
  unfold line_of, description_of, itemExplanations_at. intros H.
  destruct (explanation_of itemExplanations (JsString.trim item));
    [reflexivity|]. rewrite H. reflexivity.
Qed.

Lemma flat_map_line_table (items : list string) :
  Forall (fun item => inherited_name (JsString.trim item) = false) items ->
  flat_map line_of items = flat_map description_of items.
Proof.
  induction 1 as [|item items Hitem _ IH]; [reflexivity|].
  cbn [flat_map]. rewrite (line_of_table _ Hitem), IH. reflexivity.
Qed.

Lemma description_of_nil (item : string) :
  description_of item = [] <-> item_matches item = false.
Proof.
  unfold description_of, item_matches.
  destruct (explanation_of itemExplanations (JsString.trim item));
    split; try reflexivity; discriminate.
Qed.

Lemma flat_map_description_nil (items : list string) :
  flat_map description_of items = []
  <-> Forall (fun item => item_matches item = false) items.
Proof.
  induction items as [|item items IH]; cbn [flat_map].
  - split; [constructor | reflexivity].
  - rewrite Forall_cons_iff, <- IH, <- description_of_nil. split.
    + apply app_eq_nil.
    + intros [-> ->]. reflexivity.
Qed.

Lemma flat_map_description_length (items : list string) :
  List.length (flat_map description_of items)
  = List.length (filter item_matches items).
Proof.
  induction items as [|item items IH]; [reflexivity|].
  cbn [flat_map filter]. rewrite length_app, IH.
  unfold description_of, item_matches.
  destruct (explanation_of itemExplanations (JsString.trim item)); reflexivity.
Qed.

Lemma no_items_no_match (i : ItemsField) :
  has_items i = false ->
  Forall (fun item => item_matches item = false) (parsed_items i).
Proof.
  destruct i as [|s|l]; simpl.
  - constructor.
  - intros H. apply JsStringFacts.truthy_false in H. subst.
    repeat constructor.
  - destruct l; [constructor | discriminate].
Qed.

(** X17. The shape of [items] does not matter: a filing whose items are
    a comma-joined string gets the same explanation as the filing whose
    items are the array of the pieces of that string, and white space
    around a code is ignored. *)
Theorem get8KExplanation_string_or_array :
  forall (filing : Filing.t) (s : string) (l : list string),
    get8KExplanation (with_items filing (ItemsString s))
    = get8KExplanation (with_items filing (ItemsArray (JsString.split_comma s)))
    /\ get8KExplanation (with_items filing (ItemsArray (map JsString.trim l)))
       = get8KExplanation (with_items filing (ItemsArray l)).
Proof.
  intros filing s l. rewrite !get8KExplanation_unfold.
  cbn [with_items Filing.items parsed_items has_items]. split.
  - rewrite flat_map_line_trim.
    destruct (JsStringFacts.split_comma_cons s) as [t [ts Hs]].
    destruct s as [|c s].
    + reflexivity.
    + rewrite Hs. reflexivity.
  - rewrite flat_map_line_trim, length_map. reflexivity.
Qed.

(** X18. For item codes that are not names inherited from
    [Object.prototype]: the fallback text is returned exactly when no
    item code matches the table; otherwise the explanation is one block
    holding one line per matching item, in the order of the items, an
    item listed twice giving two lines. *)
Theorem get8KExplanation_lines :
  forall filing : Filing.t,
    let items := parsed_items (Filing.items filing) in
    Forall (fun item => inherited_name (JsString.trim item) = false) items ->
    (get8KExplanation filing = default_explanation
     <-> Forall (fun item => item_matches item = false) items)
    /\ (existsb item_matches items = true ->
        get8KExplanation filing
        = explanation_block (flat_map description_of items)
        /\ List.length (flat_map description_of items)
           = List.length (filter item_matches items)).
Proof.
  intros filing items Hplain. rewrite get8KExplanation_unfold. fold items.
  rewrite (flat_map_line_table items Hplain). split.
  - destruct (has_items (Filing.items filing)) eqn:Hi.
    + rewrite <- flat_map_description_nil.
      destruct (flat_map description_of items); split;
        try reflexivity; discriminate.
    + split; [intros _; apply no_items_no_match; exact Hi | reflexivity].
  - intros Hex. split; [|apply flat_map_description_length].
    apply existsb_exists in Hex. destruct Hex as [item [Hin Hm]].
    assert (Hne : ~ Forall (fun item => item_matches item = false) items).
    { intros H. rewrite Forall_forall in H. rewrite (H item Hin) in Hm.
      discriminate. }
    destruct (has_items (Filing.items filing)) eqn:Hi.
    + destruct (flat_map description_of items) eqn:E; [|reflexivity].
      destruct Hne. apply flat_map_description_nil. exact E.
    + destruct Hne. apply no_items_no_match. exact Hi.
Qed.

(** ** Charts *)

Lemma filter_length_le_all {A : Type} (p : A -> bool) (l : list A) :
  (List.length (filter p l) <= List.length l)%nat
  /\ (List.length (filter p l) = List.length l <-> Forall (fun x => p x = true) l).
Proof.
  induction l as [|a l [IHle IHeq]]; simpl.
  - split; [lia|]. split; [constructor | reflexivity].
  - destruct (p a) eqn:Ha; simpl.
    + split; [lia|]. split.
      * intros H. constructor; [exact Ha|]. apply IHeq. lia.
      * intros H. inversion H; subst. f_equal. apply IHeq. assumption.
    + split; [lia|]. split; [lia|].
      intros H. inversion H; subst. congruence.
Qed.

Lemma buy_sell_split (trades : list Trade.t) :
  (List.length (filter (fun t => String.eqb (Trade.type t) "BUY") trades)
   + List.length (filter (fun t => String.eqb (Trade.type t) "SELL") trades))%nat
  = List.length (filter is_buy_or_sell trades).
Proof.
  induction trades as [|t l IH]; [reflexivity|].
  cbn [filter]. unfold is_buy_or_sell at 1.
  destruct (String.eqb (Trade.type t) "BUY") eqn:Hb.
  - apply String.eqb_eq in Hb. rewrite Hb. simpl. rewrite <- IH. reflexivity.
  - destruct (String.eqb (Trade.type t) "SELL"); simpl; rewrite <- IH; lia.
Qed.

(** X19. The doughnut chart is given the number of trades of type BUY
    and the number of type SELL in the full [tradesData], whether
    [new Chart] accepts them or throws; a trade of any other type is in
    neither slice, so the two add up to the number of trades exactly
    when every trade is a BUY or a SELL. *)
Theorem renderCharts_buySell :
  forall st : App,
    let trades := tradesData st in
    let buys :=
      List.length (filter (fun t => String.eqb (Trade.type t) "BUY") trades) in
    let sells :=
      List.length (filter (fun t => String.eqb (Trade.type t) "SELL") trades) in
    doughnut (renderCharts st) = Some (buys, sells)
    /\ (buys + sells)%nat = List.length (filter is_buy_or_sell trades)
    /\ (buys + sells <= List.length trades)%nat
    /\ ((buys + sells)%nat = List.length trades
        <-> Forall (fun t => is_buy_or_sell t = true) trades).
Proof.
  intros st trades buys sells.
  split; [unfold renderCharts; destruct (charts st); reflexivity|].
  unfold buys, sells. rewrite buy_sell_split.
  split; [reflexivity|]. apply filter_length_le_all.
Qed.

Module TickerFacts.











End TickerFacts.





Module TimelineFacts.








End TimelineFacts.


(** ** Summary panel *)

(** X23. When the feed supplies [stats], the "active tickers" figure is
    the size of the union of the symbols of the trades and of the
    filings of the full datasets, a symbol present in both counting
    once; the filing count is the number of filings. When the feed has
    no [stats], neither figure is refreshed. *)
Theorem updateStats_activeTickers :
  forall (stats : Stats.t) (st : App),
    let panel := statsPanel (updateStats (Some stats) st) in
    (exists distinct : list string,
        NoDup distinct
        /\ (forall s, In s distinct
                      <-> In s (map Trade.symbol (tradesData st))
                          \/ In s (map Filing.symbol (form8kData st)))
        /\ activeTickers panel = LocaleNumber (of_length distinct)
        /\ (List.length distinct
            <= List.length (tradesData st) + List.length (form8kData st))%nat)
    /\ total8K panel = LocaleNumber (of_length (form8kData st))
    /\ statsPanel (updateStats None st) = statsPanel st.
Proof.
  intros stats st panel. split; [|split; reflexivity].
  exists (nodup string_dec
            (map Trade.symbol (tradesData st) ++ map Filing.symbol (form8kData st))).
  split; [apply NoDup_nodup|]. split; [|split].
  - intros s. rewrite nodup_In, in_app_iff. reflexivity.
  - reflexivity.
  - rewrite <- (length_map Trade.symbol (tradesData st)),
      <- (length_map Filing.symbol (form8kData st)), <- length_app.
    apply NoDup_incl_length; [apply NoDup_nodup|].
    intros s Hs. apply nodup_In in Hs. exact Hs.
Qed.

(** ** More on the trade filter *)

(** X25. The sort is stable under the key [shares] too: trades with one
    and the same number of shares are listed in the relative order they
    have in [tradesData]. *)
Theorem applyFilters_shares_sort_stable :
  forall (Date_parse : string -> option Z) (parseFloat : string -> option Q)
         (st : App) (v : Q),
    sortBy (controls st) = "shares" ->
    filter (has_shares v)
      (filteredTrades (applyFilters Date_parse parseFloat st))
    = filter (has_shares v)
        (filter
           (keepTrade (filterType (controls st))
              (JsString.toUpperCase (filterTicker (controls st)))
              (customWatchlistTickers st)
              (or_zero (parseFloat (filterMinValue (controls st)))))
           (tradesData st)).
Proof.
  intros Date_parse parseFloat st v Hkey.
  rewrite applyFilters_filteredTrades, Hkey.
  apply (JsArrayFacts.filter_sort _ shares_descending (fun _ => True)).
  - intros x y _ _. apply compareTrades_shares_before.
  - intros x y _ _. apply compareTrades_shares_after.
  - intros x y z _ _ _. unfold shares_descending. intros; lra.
  - intros x y _ _ Hx Hy. unfold has_shares, shares_descending in *.
    apply Qeq_bool_iff in Hx, Hy. lra.
  - rewrite Forall_forall. intros; exact I.
Qed.

(** X26. The ticker search does not depend on the case in which the
    user types: a text and its uppercase form select the same trades and
    give the same Form 4 table. *)
Theorem applyFilters_ticker_case :
  forall (Date_parse : string -> option Z) (parseFloat : string -> option Q)
         (st : App) (ticker : string),
    let typed := applyFilters Date_parse parseFloat (with_filterTicker ticker st) in
    let upper :=
      applyFilters Date_parse parseFloat
        (with_filterTicker (JsString.toUpperCase ticker) st) in
    filteredTrades upper = filteredTrades typed
    /\ form4Body upper = form4Body typed.
Proof.
  intros Date_parse parseFloat st ticker typed upper. unfold typed, upper.
  rewrite !applyFilters_unfold. cbn [filteredTrades form4Body].
  assert (E : selectedTrades Date_parse parseFloat
                (with_filterTicker (JsString.toUpperCase ticker) st)
              = selectedTrades Date_parse parseFloat (with_filterTicker ticker st)).
  { unfold selectedTrades, with_filterTicker.
    cbn [set_controls controls filterTicker filterType filterMinValue sortBy
         customWatchlistTickers tradesData].
    rewrite WatchlistFacts.toUpperCase_idem. reflexivity. }
  rewrite E. split; reflexivity.
Qed.

(** ** The further properties at concrete inputs *)

Lemma form4Body_after_applyFilters_witness :
  let st := example_state "100000" "date" in
  let st' := applyFilters isoDate wholeFloat st in
  (exists r, In r (tradesData st)
             /\ filterPredicate "all" EmptyString [] 100000 r)
  /\ form4Body st' = TradeRows (filteredTrades st')
  /\ map Trade.symbol (filteredTrades st') = ["AAPL"].
Proof.
  assert (H : exists r, In r (tradesData (example_state "100000" "date"))
                        /\ filterPredicate "all" EmptyString [] 100000 r).
  { exists (trade_of "BUY" "AAPL" 100 200000 "2024-01-01").
    split; [left; reflexivity|].
    split; [left; reflexivity|]. split; [left; reflexivity|].
    split; [left; reflexivity|]. simpl. unfold Qle. simpl. lia. }
  split; [exact H|]. split; [|reflexivity].
  exact (proj1 (proj1 (proj2
           (form4Body_after_applyFilters isoDate wholeFloat
              (example_state "100000" "date"))) H)).
Defined.

Lemma form8kBody_after_render_witness :
  let st := set_customWatchlistTickers ["TSLA"] (example_state EmptyString "date") in
  let st' := renderForm8kTable isoDate st in
  form8kBody st' = NoFilingsAvailable
  /\ (forall f, In f (form8kData st) ->
                ~ watchlistRule (customWatchlistTickers st) (Filing.symbol f)).
Proof.
  split; [reflexivity|].
  exact (proj1 (proj1
           (form8kBody_after_render isoDate
              (set_customWatchlistTickers ["TSLA"]
                 (example_state EmptyString "date")))) eq_refl).
Defined.

Lemma views_current_kept_witness :
  let st := applyFilters isoDate wholeFloat (example_state EmptyString "value") in
  views_current isoDate wholeFloat st
  /\ views_current isoDate wholeFloat (applyForm8KSort isoDate st).
Proof.
  assert (H : views_current isoDate wholeFloat
                (applyFilters isoDate wholeFloat (example_state EmptyString "value"))).
  { repeat split. }
  split; [exact H|].
  exact (proj1 (proj2 (proj2 (proj2 (proj2
           (views_current_kept isoDate wholeFloat
              (applyFilters isoDate wholeFloat
                 (example_state EmptyString "value"))))))) H).
Defined.

Lemma loadData_replaces_wholesale_witness :
  let c := controls_of "all" EmptyString EmptyString "date" in
  same_settings (initial c) (example_state EmptyString "date")
  /\ loadData isoDate wholeFloat (Response true (Some later_trades_doc))
       (Response true (Some example_filings_doc)) (initial c)
     = loadData isoDate wholeFloat (Response true (Some later_trades_doc))
         (Response true (Some example_filings_doc))
         (example_state EmptyString "date").
Proof.
  assert (H : same_settings
                (initial (controls_of "all" EmptyString EmptyString "date"))
                (example_state EmptyString "date")).
  { repeat split. }
  split; [exact H|].
  exact (loadData_replaces_wholesale isoDate wholeFloat true true
           later_trades_doc example_filings_doc _ _ H (fun _ => eq_refl)
           eq_refl (fun Hdrawn => match Hdrawn eq_refl with end)).
Defined.

Lemma resetFilters_keeps_watchlist_witness :
  let st := set_customWatchlistTickers ["AAPL"; "MSFT"]
              (example_state EmptyString "value") in
  wholeFloat "100000" = Some 100000
  /\ customWatchlistTickers (resetFilters isoDate wholeFloat st) = ["AAPL"; "MSFT"]
  /\ map Trade.symbol (filteredTrades (resetFilters isoDate wholeFloat st))
     = ["AAPL"].
Proof.
  split; [reflexivity|]. split; [|reflexivity].
  exact (proj1
           (resetFilters_keeps_watchlist isoDate wholeFloat
              (set_customWatchlistTickers ["AAPL"; "MSFT"]
                 (example_state EmptyString "value")) eq_refl)).
Defined.

Lemma applyFilters_sorted_numeric_witness :
  let st := example_state EmptyString "value" in
  sortBy (controls st) = "value"
  /\ Forall valued (filteredTrades (applyFilters isoDate wholeFloat st))
  /\ StronglySorted value_descending
       (filteredTrades (applyFilters isoDate wholeFloat st)).
Proof.
  assert (H : Forall valued
                (filteredTrades
                   (applyFilters isoDate wholeFloat
                      (example_state EmptyString "value")))).
  { repeat constructor; discriminate. }
  split; [reflexivity|]. split; [exact H|].
  exact (proj1
           (applyFilters_sorted_numeric isoDate wholeFloat
              (example_state EmptyString "value")) eq_refl H).
Defined.

Lemma applyFilters_sorted_by_date_witness :
  let st := example_state EmptyString "date" in
  let out := filteredTrades (applyFilters isoDate wholeFloat st) in
  Forall (filingDate_valid isoDate) out
  /\ map Trade.symbol out = ["ZZZZ"; "MSFT"; "AAPL"]
  /\ StronglySorted (filing_newest_first isoDate) out.
Proof.
  assert (H : Forall (filingDate_valid isoDate)
                (filteredTrades
                   (applyFilters isoDate wholeFloat
                      (example_state EmptyString "date")))).
  { repeat constructor; discriminate. }
  split; [exact H|]. split; [reflexivity|].
  refine (applyFilters_sorted_by_date isoDate wholeFloat
            (example_state EmptyString "date") _ _ H); discriminate.
Defined.

Lemma applyCustomWatchlist_symbols_witness :
  let st' := applyCustomWatchlist isoDate wholeFloat example_watch_state in
  customWatchlistTickers st' = ["AAPL"; "ZZZZ"]
  /\ map Trade.symbol (filteredTrades st') = ["ZZZZ"; "AAPL"]
  /\ Forall (fun t => In (Trade.symbol t) (customWatchlistTickers st')
                      /\ ticker_normal (Trade.symbol t))
       (filteredTrades st').
Proof.
  split; [reflexivity|]. split; [reflexivity|].
  refine (proj1 (proj2
            (applyCustomWatchlist_symbols isoDate wholeFloat example_watch_state)
            _)).
  discriminate.
Defined.

Lemma get8KExplanation_lines_witness :
  let filing := filing_of "GOOGL" (ItemsString "2.02, 9.99, 8.01") "2024-02-01" in
  Forall (fun item => inherited_name (JsString.trim item) = false)
    (parsed_items (Filing.items filing))
  /\ get8KExplanation filing
     = explanation_block
         [ item_markup "2.02" "Earnings release or financial results";
           item_markup "8.01" "Other material event (lawsuit, investigation, etc.)" ].
Proof.
  assert (H : Forall (fun item => inherited_name (JsString.trim item) = false)
                (parsed_items (ItemsString "2.02, 9.99, 8.01"))).
  { repeat constructor. }
  split; [exact H|].
  exact (proj1 (proj2
           (get8KExplanation_lines
              (filing_of "GOOGL" (ItemsString "2.02, 9.99, 8.01") "2024-02-01") H)
           eq_refl)).
Defined.

Lemma renderCharts_buySell_witness :
  Forall (fun t => is_buy_or_sell t = true) example_trades
  /\ doughnut (renderCharts (example_state EmptyString "date"))
     = Some (2%nat, 1%nat).
Proof.
  split; [repeat constructor|].
  exact (proj1 (renderCharts_buySell (example_state EmptyString "date"))).
Defined.




Lemma updateStats_activeTickers_witness :
  let st := example_state EmptyString "date" in
  total8K (statsPanel (updateStats (Some (Stats.mk 3 2 1 5)) st)) = LocaleNumber 3
  /\ activeTickers (statsPanel (updateStats (Some (Stats.mk 3 2 1 5)) st))
     = LocaleNumber 4.
Proof.
  split; [|reflexivity].
  exact (proj1 (proj2
           (updateStats_activeTickers (Stats.mk 3 2 1 5)
              (example_state EmptyString "date")))).
Defined.

Lemma applyFilters_shares_sort_stable_witness :
  let st := example_state EmptyString "shares" in
  sortBy (controls st) = "shares"
  /\ filter (has_shares 40)
       (filteredTrades (applyFilters isoDate wholeFloat st))
     = filter (has_shares 40)
         (filter (keepTrade "all" EmptyString [] 0) example_trades).
Proof.
  split; [reflexivity|].
  exact (applyFilters_shares_sort_stable isoDate wholeFloat
           (example_state EmptyString "shares") 40 eq_refl).
Defined.
